(** * InventoryService: inventory transactions, lot numbers, cost dispatch
      and compute-job scheduling.

    Shallow embedding of the [InventoryService] class.  JavaScript values
    are a small sum type, objects are finite maps from property names to
    values, and the asynchronous methods are state-passing functions over
    a [World] that holds the tenant stores, the job queue and the
    dispatched events. *)

From stdpp Require Import gmap strings list fin_maps.
From Stdlib Require Import ZArith Ascii String Lia.

Local Open Scope string_scope.
Local Open Scope Z_scope.

(* ===================================================================== *)
(** ** JavaScript values *)
(* ===================================================================== *)

Module Js.

(** Numbers are mathematical integers plus [NaN].  JavaScript numbers are
    doubles; they agree with [Z] on the safe-integer range, which the
    counters of this service do not leave. *)
Inductive JsNumber : Type :=
  | Num (z : Z)
  | NaN.

Inductive JsVal : Type :=
  | VUndefined
  | VNull
  | VBool (b : bool)
  | VNumber (n : JsNumber)
  | VString (s : string)
  | VDate (time : Z).

#[global] Instance JsNumber_eq_dec : EqDecision JsNumber.
Proof. solve_decision. Defined.

#[global] Instance JsVal_eq_dec : EqDecision JsVal.
Proof. solve_decision. Defined.

(** A plain object: own properties by name. *)
Abbreviation JsObject := (gmap string JsVal).

(** [o.k]: reading an absent property yields [undefined]. *)
Definition prop (o : JsObject) (k : string) : JsVal :=
  default VUndefined (o !! k).

(** ToBoolean. *)
Definition truthy (v : JsVal) : bool :=
  match v with
  | VUndefined | VNull => false
  | VBool b => b
  | VNumber (Num z) => negb (z =? 0)
  | VNumber NaN => false
  | VString s => negb (String.eqb s EmptyString)
  | VDate _ => true
  end.

(** [a + b] on numbers. *)
Definition num_add (a b : JsNumber) : JsNumber :=
  match a, b with
  | Num x, Num y => Num (x + y)
  | _, _ => NaN
  end.

(** *** parseInt(_, 10) *)

Definition is_white_space (c : ascii) : bool :=
  match N_of_ascii c with
  | 9%N | 10%N | 11%N | 12%N | 13%N | 32%N => true
  | _ => false
  end.

Fixpoint skip_white_space (s : string) : string :=
  match s with
  | String c rest => if is_white_space c then skip_white_space rest else s
  | EmptyString => s
  end.

Definition digit_of (c : ascii) : option Z :=
  let n := Z.of_N (N_of_ascii c) in
  if (48 <=? n) && (n <=? 57) then Some (n - 48) else None.

(** Longest prefix of decimal digits; [None] when there is no digit. *)
Fixpoint parse_digits (s : string) (acc : option Z) : option Z :=
  match s with
  | String c rest =>
      match digit_of c with
      | Some d => parse_digits rest (Some (10 * default 0 acc + d))
      | None => acc
      end
  | EmptyString => acc
  end.

Definition parseInt_string (s : string) : JsNumber :=
  let s1 := skip_white_space s in
  let '(sign, s2) :=
    match s1 with
    | String "-"%char rest => (-1, rest)
    | String "+"%char rest => (1, rest)
    | _ => (1, s1)
    end in
  match parse_digits s2 None with
  | Some z => Num (sign * z)
  | None => NaN
  end.

(** [parseInt(v, 10)]: the argument is first converted to a string.  An
    integer prints as its decimal digits (below 1e21), every other
    non-string value prints as a word without a leading digit. *)
Definition parseInt (v : JsVal) : JsNumber :=
  match v with
  | VString s => parseInt_string s
  | VNumber n => n
  | VUndefined | VNull | VBool _ | VDate _ => NaN
  end.

(** *** Exceptions and completions *)

Inductive JsException : Type :=
  | ErrorExn (message : string)
  | TypeErrorExn (message : string).

Inductive Completion (A : Type) : Type :=
  | Normal (a : A)
  | Throw (e : JsException).

Arguments Normal {A} a.
Arguments Throw {A} e.

(** [Array.prototype.map] with a callback that may throw: the first
    exception aborts the traversal. *)
Fixpoint array_map {A B : Type} (f : A -> Completion B) (xs : list A)
  : Completion (list B) :=
  match xs with
  | [] => Normal []
  | x :: rest =>
      match f x with
      | Throw e => Throw e
      | Normal y =>
          match array_map f rest with
          | Throw e => Throw e
          | Normal ys => Normal (y :: ys)
          end
      end
  end.

(** lodash [pick(object, paths)]: a new object with the listed properties
    that the source object has; the others are left out. *)
Definition pick (o : JsObject) (paths : list string) : JsObject :=
  foldr (fun k acc =>
           match o !! k with
           | Some v => <[k := v]> acc
           | None => acc
           end) ∅ paths.

End Js.

Import Js.

(* ===================================================================== *)
(** ** EntryTransformer *)
(* ===================================================================== *)

Inductive TInventoryTransactionDirection : Type := IN | OUT.

Definition direction_val (d : TInventoryTransactionDirection) : JsVal :=
  match d with
  | IN => VString "IN"
  | OUT => VString "OUT"
  end.

(** The arrow function given to [itemEntries.map]. *)
Definition transform_entry
    (direction : TInventoryTransactionDirection) (date : JsVal)
    (lotNumber : JsNumber) (entry : JsObject) : Completion JsObject :=
  Normal
    (<["entryId" := prop entry "id"]>
     (<["date" := date]>
     (<["direction" := direction_val direction]>
     (<["transactionId" := prop entry "referenceId"]>
     (<["transactionType" := prop entry "referenceType"]>
     (<["lotNumber" := VNumber lotNumber]>
     (pick entry ["itemId"; "quantity"; "rate"]))))))).

Definition transformItemEntriesToInventory
    (itemEntries : list JsObject)
    (direction : TInventoryTransactionDirection) (date : JsVal)
    (lotNumber : JsNumber) : Completion (list JsObject) :=
  array_map (transform_entry direction date lotNumber) itemEntries.

(** An entry is malformed when [itemId], [quantity] or [rate] is missing
    from it, that is, reads [undefined]. *)
Definition malformed (entry : JsObject) : Prop :=
  prop entry "itemId" = VUndefined \/ prop entry "quantity" = VUndefined \/
  prop entry "rate" = VUndefined.

(* ===================================================================== *)
(** ** The world the service acts on *)
(* ===================================================================== *)

(** Query of the settings store: a key and, optionally, a group. *)
Abbreviation IMetaQuery := (string * option string)%type.

(** Tenant-scoped storage: the [Item], [InventoryTransaction] and
    [InventoryCostLotTracker] tables and the settings store. *)
Record Tenant : Type := mkTenant {
  Item_rows : gmap Z JsObject;
  InventoryTransaction_rows : list JsObject;
  InventoryCostLotTracker_rows : list JsObject;
  settings_meta : gmap IMetaQuery JsVal;
}.

Definition empty_tenant : Tenant :=
  mkTenant ∅ [] [] ∅.

(** Payload and document of a queued job.  Dates are time values
    (milliseconds since the epoch), compared as the queue compares them. *)
Record JobData : Type := mkJobData {
  data_startingDate : Z;
  data_itemId : Z;
  data_tenantId : Z;
}.

Record Job : Type := mkJob {
  job_name : string;
  nextRunAt : option Z;
  job_data : JobData;
}.

#[global] Instance JobData_eq_dec : EqDecision JobData.
Proof. solve_decision. Defined.

#[global] Instance Job_eq_dec : EqDecision Job.
Proof. solve_decision. Defined.

(** Events of [subscribers/events] that the service dispatches. *)
Inductive Event : Type :=
  | onComputeItemCostJobScheduled (startingDate itemId tenantId : Z)
  | onInventoryTransactionsCreated
      (tenantId : Z) (inventoryTransactions : list JsObject)
  | onInventoryTransactionsDeleted
      (tenantId : Z) (oldInventoryTransactions : list JsObject)
      (transactionId transactionType : JsVal).

Record World : Type := mkWorld {
  tenants : gmap Z Tenant;
  agenda_jobs : list Job;
  dispatched : list Event;
}.

Definition tenant_of (w : World) (tenantId : Z) : Tenant :=
  default empty_tenant (tenants w !! tenantId).

Definition set_tenant (tenantId : Z) (t : Tenant) (w : World) : World :=
  mkWorld (<[tenantId := t]> (tenants w)) (agenda_jobs w) (dispatched w).

(** *** State and exception monad of the asynchronous methods *)

Definition M (A : Type) : Type := World -> Completion A * World.

Definition ret {A : Type} (a : A) : M A := fun w => (Normal a, w).

Definition throw {A : Type} (e : JsException) : M A := fun w => (Throw e, w).

Definition bind {A B : Type} (m : M A) (k : A -> M B) : M B :=
  fun w =>
    match m w with
    | (Normal a, w') => k a w'
    | (Throw e, w') => (Throw e, w')
    end.

Definition lift {A : Type} (c : Completion A) : M A := fun w => (c, w).

Notation "x <- m ;; k" := (bind m (fun x => k))
  (at level 100, m at next level, right associativity).
Notation "m ;;; k" := (bind m (fun _ => k))
  (at level 100, right associativity).

(** *** Collaborators: tables, settings store, event bus, job queue *)

Definition Item_findById (tenantId itemId : Z) : M (option JsObject) :=
  fun w => (Normal (Item_rows (tenant_of w tenantId) !! itemId), w).

(** [InventoryTransaction.query().insert(row)]; columns generated by the
    storage are not modelled. *)
Definition InventoryTransaction_insert (tenantId : Z) (row : JsObject)
  : M JsObject :=
  fun w =>
    let t := tenant_of w tenantId in
    (Normal row,
     set_tenant tenantId
       (mkTenant (Item_rows t) (InventoryTransaction_rows t ++ [row])
          (InventoryCostLotTracker_rows t) (settings_meta t)) w).

Definition InventoryCostLotTracker_insert (tenantId : Z) (row : JsObject)
  : M JsObject :=
  fun w =>
    let t := tenant_of w tenantId in
    (Normal row,
     set_tenant tenantId
       (mkTenant (Item_rows t) (InventoryTransaction_rows t)
          (InventoryCostLotTracker_rows t ++ [row]) (settings_meta t)) w).

Definition same_document (transactionId transactionType : JsVal)
    (row : JsObject) : bool :=
  bool_decide (prop row "transactionId" = transactionId) &&
  bool_decide (prop row "transactionType" = transactionType).

Definition inventoryTransactionRepository_find
    (tenantId : Z) (transactionId transactionType : JsVal)
  : M (list JsObject) :=
  fun w =>
    (Normal (List.filter (same_document transactionId transactionType)
               (InventoryTransaction_rows (tenant_of w tenantId))), w).

Definition inventoryTransactionRepository_deleteBy
    (tenantId : Z) (transactionType transactionId : JsVal) : M unit :=
  fun w =>
    let t := tenant_of w tenantId in
    (Normal tt,
     set_tenant tenantId
       (mkTenant (Item_rows t)
          (List.filter
             (fun row => negb (same_document transactionId transactionType row))
             (InventoryTransaction_rows t))
          (InventoryCostLotTracker_rows t) (settings_meta t)) w).

(** Modelled from the spec: the tenant settings store (Settings store:
    find/get/set/save keyed by {key, group} pairs, scoped by tenantId).
    [find] yields the stored entry, if any; here the entry is its value. *)
Definition settings_find (tenantId : Z) (query : IMetaQuery)
  : M (option JsVal) :=
  fun w => (Normal (settings_meta (tenant_of w tenantId) !! query), w).

Definition settings_get (tenantId : Z) (query : IMetaQuery) : M JsVal :=
  fun w =>
    (Normal (default VUndefined (settings_meta (tenant_of w tenantId) !! query)),
     w).

Definition settings_set (tenantId : Z) (query : IMetaQuery) (value : JsVal)
  : M unit :=
  fun w =>
    let t := tenant_of w tenantId in
    (Normal tt,
     set_tenant tenantId
       (mkTenant (Item_rows t) (InventoryTransaction_rows t)
          (InventoryCostLotTracker_rows t)
          (<[query := value]> (settings_meta t))) w).

(** The store of the model has no cache apart from what [set] wrote. *)
Definition settings_save (tenantId : Z) : M unit := ret tt.

Definition eventDispatcher_dispatch (e : Event) : M unit :=
  fun w =>
    (Normal tt, mkWorld (tenants w) (agenda_jobs w) (dispatched w ++ [e])).

(** Modelled from the spec: the job queue (Job queue: schedule(delayConfig,
    jobName, payload), cancel(filter), jobs(filter) -> [Job]).  [cancel]
    removes the matching jobs and tells how many, [jobs] lists the matching
    jobs, [schedule] adds a job due at the given time. *)
Definition agenda_cancel (query : Job -> bool) : M nat :=
  fun w =>
    (Normal (List.length (List.filter query (agenda_jobs w))),
     mkWorld (tenants w)
       (List.filter (fun j => negb (query j)) (agenda_jobs w))
       (dispatched w)).

Definition agenda_jobs_matching (query : Job -> bool) : M (list Job) :=
  fun w => (Normal (List.filter query (agenda_jobs w)), w).

Definition agenda_schedule (when : Z) (name : string) (data : JobData)
  : M Job :=
  fun w =>
    let j := mkJob name (Some when) data in
    (Normal j, mkWorld (tenants w) (agenda_jobs w ++ [j]) (dispatched w)).

(** The two cost-method strategies, each built from
    (tenantId, fromDate, itemId). *)
Inductive CostMethodComputer : Type :=
  | NewInventoryCostLotTracker (tenantId fromDate itemId : Z)
  | NewInventoryAverageCost (tenantId fromDate itemId : Z).

(** What the service is given from outside: the line-item retrieval
    service, the [computeItemCost()] entry point of the strategies and the
    configured delay of the compute job (resolved to its due time). *)
Class Collaborators : Type := {
  getInventoryEntries :
    Z -> string -> Z -> World -> Completion (list JsObject);
  costMethodComputer_computeItemCost : CostMethodComputer -> M JsVal;
  config_scheduleComputeItemCost : Z;
}.

(* ===================================================================== *)
(** ** InventoryService *)
(* ===================================================================== *)

Section InventoryService.

Context `{C : Collaborators}.

(** *** LotSequencer *)

Definition LOT_NUMBER_KEY : IMetaQuery := ("lot_number_increment", None).

Definition getNextLotNumber (tenantId : Z) : M JsNumber :=
  storedLotNumber <- settings_find tenantId LOT_NUMBER_KEY ;;
  ret (match storedLotNumber with
       | Some value => if truthy value then parseInt value else Num 1
       | None => Num 1
       end).

Definition incrementNextLotNumber (tenantId : Z) : M JsNumber :=
  storedLotNumber <- settings_find tenantId LOT_NUMBER_KEY ;;
  let lotNumber :=
    match storedLotNumber with
    | Some value =>
        if truthy value then num_add (parseInt value) (Num 1) else Num 1
    | None => Num 1
    end in
  settings_set tenantId LOT_NUMBER_KEY (VNumber lotNumber) ;;;
  settings_save tenantId ;;;
  ret lotNumber.

(** *** TransactionRecorder *)

Definition deleteInventoryTransactions
    (tenantId : Z) (transactionId transactionType : JsVal)
  : M (list JsObject) :=
  oldInventoryTransactions <-
    inventoryTransactionRepository_find tenantId transactionId transactionType ;;
  inventoryTransactionRepository_deleteBy tenantId transactionType transactionId ;;;
  eventDispatcher_dispatch
    (onInventoryTransactionsDeleted tenantId oldInventoryTransactions
       transactionId transactionType) ;;;
  ret oldInventoryTransactions.

Definition recordInventoryTransaction
    (tenantId : Z) (inventoryEntry : JsObject) (deleteOld : bool)
  : M JsObject :=
  (if deleteOld
   then deleteInventoryTransactions tenantId
          (prop inventoryEntry "transactionId")
          (prop inventoryEntry "transactionType") ;;; ret tt
   else ret tt) ;;;
  InventoryTransaction_insert tenantId
    (<["lotNumber" := prop inventoryEntry "lotNumber"]> inventoryEntry).

(** The operations handed to [Promise.all], started in list order.  The
    model runs each one to its end before the next starts, which is one of
    the schedules the runtime admits. *)
Fixpoint record_all (tenantId : Z) (transactions : list JsObject)
    (override : bool) : M (list JsObject) :=
  match transactions with
  | [] => ret []
  | transaction :: rest =>
      stored <- recordInventoryTransaction tenantId transaction override ;;
      others <- record_all tenantId rest override ;;
      ret (stored :: others)
  end.

Definition recordInventoryTransactions
    (tenantId : Z) (transactions : list JsObject) (override : bool)
  : M unit :=
  inventoryTransactions <- record_all tenantId transactions override ;;
  eventDispatcher_dispatch
    (onInventoryTransactionsCreated tenantId inventoryTransactions).

Definition recordInventoryTransactionsFromItemsEntries
    (tenantId transactionId : Z) (transactionType : string)
    (transactionDate : JsVal)
    (transactionDirection : TInventoryTransactionDirection)
    (override : bool) : M unit :=
  lotNumber <- getNextLotNumber tenantId ;;
  inventoryEntries <-
    (fun w => (getInventoryEntries tenantId transactionType transactionId w, w)) ;;
  if (List.length inventoryEntries <=? 0)%nat then ret tt
  else
    inventoryTranscations <-
      lift (transformItemEntriesToInventory inventoryEntries
              transactionDirection transactionDate lotNumber) ;;
    recordInventoryTransactions tenantId inventoryTranscations override ;;;
    incrementNextLotNumber tenantId ;;;
    ret tt.

Definition recordInventoryCostLotTransaction
    (tenantId : Z) (inventoryLotEntry : JsObject) : M JsObject :=
  InventoryCostLotTracker_insert tenantId inventoryLotEntry.

(** *** CostComputeDispatcher *)

(** The [switch] statement of [computeItemCost], as a function of its
    discriminant; [None] when no case matches and the variable stays
    unassigned. *)
Definition switch_cost_method (discriminant : string)
    (tenantId fromDate itemId : Z) : option CostMethodComputer :=
  if bool_decide (discriminant = "FIFO") || bool_decide (discriminant = "LIFO")
  then Some (NewInventoryCostLotTracker tenantId fromDate itemId)
  else if bool_decide (discriminant = "AVG")
  then Some (NewInventoryAverageCost tenantId fromDate itemId)
  else None.

Definition computeItemCost (tenantId fromDate itemId : Z) : M JsVal :=
  item <- Item_findById tenantId itemId ;;
  match item with
  | None => throw (TypeErrorExn "Cannot read property 'type' of undefined")
  | Some item =>
      if negb (bool_decide (prop item "type" = VString "inventory"))
      then throw (ErrorExn
                    "You could not compute item cost has no inventory type.")
      else
        match switch_cost_method "AVG" tenantId fromDate itemId with
        | Some costMethodComputer =>
            costMethodComputer_computeItemCost costMethodComputer
        | None =>
            throw (TypeErrorExn
                     "Cannot read property 'computeItemCost' of undefined")
        end
  end.

(** *** ComputeScheduler *)

Definition pending_compute_job (tenantId itemId : Z) (j : Job) : bool :=
  bool_decide (job_name j = "compute-item-cost") &&
  bool_decide (nextRunAt j <> None) &&
  bool_decide (data_tenantId (job_data j) = tenantId) &&
  bool_decide (data_itemId (job_data j) = itemId).

(** Filter of the [cancel] call: ['data.startingDate': { $gt }]. *)
Definition upper_starting_date (tenantId itemId startingDate : Z) (j : Job)
  : bool :=
  pending_compute_job tenantId itemId j &&
  (startingDate <? data_startingDate (job_data j)).

(** Filter of the [jobs] call: ['data.startingDate': { $lte }]. *)
Definition lower_starting_date (tenantId itemId startingDate : Z) (j : Job)
  : bool :=
  pending_compute_job tenantId itemId j &&
  (data_startingDate (job_data j) <=? startingDate).

Definition scheduleComputeItemCost (tenantId itemId startingDate : Z)
  : M unit :=
  agenda_cancel (upper_starting_date tenantId itemId startingDate) ;;;
  dependsJobs <-
    agenda_jobs_matching (lower_starting_date tenantId itemId startingDate) ;;
  if (List.length dependsJobs =? 0)%nat then
    agenda_schedule config_scheduleComputeItemCost "compute-item-cost"
      (mkJobData startingDate itemId tenantId) ;;;
    eventDispatcher_dispatch
      (onComputeItemCostJobScheduled startingDate itemId tenantId)
  else ret tt.

(** The pending compute jobs of (tenantId, itemId), in queue order. *)
Definition pending_jobs (tenantId itemId : Z) (w : World) : list Job :=
  List.filter (pending_compute_job tenantId itemId) (agenda_jobs w).

(** The job that [scheduleComputeItemCost] hands to the queue. *)
Definition compute_item_cost_job (tenantId itemId startingDate : Z) : Job :=
  mkJob "compute-item-cost" (Some config_scheduleComputeItemCost)
    (mkJobData startingDate itemId tenantId).

(** *** RunningStateFlag *)

Definition markItemsCostComputeRunning (tenantId : Z) (isRunning : bool)
  : M unit :=
  settings_set tenantId ("cost_compute_running", Some "inventory")
    (VBool isRunning) ;;;
  settings_save tenantId.

Definition isItemsCostComputeRunning (tenantId : Z) : M JsVal :=
  settings_get tenantId ("cost_compute_running", Some "inventory").

(** *** Sequential runs used by the properties *)

(** The lot numbers on the stored inventory transactions of a tenant, in
    insertion order. *)
Definition stamped_lot_numbers (w : World) (tenantId : Z) : list JsVal :=
  map (fun row => prop row "lotNumber")
    (InventoryTransaction_rows (tenant_of w tenantId)).

(** The entry of the lot counter in the settings of a tenant. *)
Definition stored_lot_number (w : World) (tenantId : Z) : option JsVal :=
  settings_meta (tenant_of w tenantId) !! LOT_NUMBER_KEY.

(** [n] successive calls of [incrementNextLotNumber]: the completions, in
    call order, and the final world. *)
Fixpoint incrementNextLotNumber_times (n : nat) (tenantId : Z) (w : World)
  : list (Completion JsNumber) * World :=
  match n with
  | O => ([], w)
  | S n' =>
      let '(r, w1) := incrementNextLotNumber tenantId w in
      let '(rs, w2) := incrementNextLotNumber_times n' tenantId w1 in
      (r :: rs, w2)
  end.

End InventoryService.

(* ===================================================================== *)
(** ** Concrete collaborators and worlds *)
(* ===================================================================== *)

Module Fixtures.

(** One inventory line of the document (type, id). *)
Definition line_entry (transactionType : string) (transactionId : Z)
  : JsObject :=
  <["id" := VNumber (Num 100)]>
  (<["referenceType" := VString transactionType]>
  (<["referenceId" := VNumber (Num transactionId)]>
  (<["itemId" := VNumber (Num 7)]>
  (<["quantity" := VNumber (Num 2)]>
  (<["rate" := VNumber (Num 30)]> ∅))))).

(** A line without [itemId]. *)
Definition line_entry_without_itemId : JsObject :=
  <["id" := VNumber (Num 100)]>
  (<["referenceType" := VString "Bill"]>
  (<["referenceId" := VNumber (Num 42)]>
  (<["quantity" := VNumber (Num 2)]>
  (<["rate" := VNumber (Num 30)]> ∅)))).

(** Strategies that answer with the name of their class. *)
Definition named_strategy (c : CostMethodComputer) : M JsVal :=
  match c with
  | NewInventoryCostLotTracker _ _ _ => ret (VString "InventoryCostLotTracker")
  | NewInventoryAverageCost _ _ _ => ret (VString "InventoryAverageCost")
  end.

(** Every document has one inventory line. *)
Definition one_line_documents : Collaborators := {|
  getInventoryEntries := fun _ transactionType transactionId _ =>
    Normal [line_entry transactionType transactionId];
  costMethodComputer_computeItemCost := named_strategy;
  config_scheduleComputeItemCost := 10000;
|}.

(** No document has an inventory line. *)
Definition no_line_documents : Collaborators := {|
  getInventoryEntries := fun _ _ _ _ => Normal [];
  costMethodComputer_computeItemCost := named_strategy;
  config_scheduleComputeItemCost := 10000;
|}.

(** A world without tenants, jobs or events. *)
Definition fresh_world : World := mkWorld ∅ [] [].

(** An inventory item configured FIFO.  [computeItemCost] reads no
    property of an item but [type]; the configured method is held here
    under [costMethod]. *)
Definition fifo_inventory_item : JsObject :=
  <["type" := VString "inventory"]> (<["costMethod" := VString "FIFO"]> ∅).

Definition service_item : JsObject :=
  <["type" := VString "service"]> ∅.

(** Tenant 1 with item 7, an inventory item valued FIFO, and item 8, a
    service item. *)
Definition items_world : World :=
  set_tenant 1
    (mkTenant (<[7 := fifo_inventory_item]> (<[8 := service_item]> ∅))
       [] [] ∅)
    fresh_world.

(** A pending compute job of tenant 1, item 7. *)
Definition pending_job_at (startingDate : Z) : Job :=
  mkJob "compute-item-cost" (Some 5000) (mkJobData startingDate 7 1).

(** A queue where (1, 7) has a pending job starting at 300, next to a job
    of tenant 2, a job of item 9, and a job that is not pending. *)
Definition later_job_world : World :=
  mkWorld ∅
    [ mkJob "compute-item-cost" (Some 5000) (mkJobData 50 7 2);
      pending_job_at 300;
      mkJob "compute-item-cost" (Some 5000) (mkJobData 50 9 1);
      mkJob "compute-item-cost" None (mkJobData 50 7 1) ]
    [].

(** A queue where (1, 7) has a pending job starting at 100 and one
    starting at 300. *)
Definition earlier_job_world : World :=
  mkWorld ∅
    [ mkJob "compute-item-cost" (Some 5000) (mkJobData 50 7 2);
      pending_job_at 100;
      mkJob "compute-item-cost" None (mkJobData 50 7 1);
      pending_job_at 300 ]
    [].

(** Two documents recorded one after the other for tenant 1. *)
Definition record_two_documents : M unit :=
  @recordInventoryTransactionsFromItemsEntries one_line_documents
    1 42 "Bill" (VDate 1000) IN false ;;;
  @recordInventoryTransactionsFromItemsEntries one_line_documents
    1 43 "Bill" (VDate 2000) IN false.

End Fixtures.


(* ===================================================================== *)
(** ** Runs of several calls, and what a call may touch *)
(* ===================================================================== *)

Section Runs.

Context `{C : Collaborators}.

(** Successive [scheduleComputeItemCost] calls for one (tenantId, itemId),
    one per starting date, in list order. *)
Fixpoint scheduleComputeItemCost_each (tenantId itemId : Z)
    (startingDates : list Z) : M unit :=
  match startingDates with
  | [] => ret tt
  | startingDate :: rest =>
      scheduleComputeItemCost tenantId itemId startingDate ;;;
      scheduleComputeItemCost_each tenantId itemId rest
  end.


End Runs.




(** [w'] differs from [w] at most in the storage of [tenantId] and in
    events added at the end: the other tenants and the job queue are the
    same. *)
Definition confined_to (tenantId : Z) (w w' : World) : Prop :=
  (forall other : Z, other <> tenantId ->
     tenants w' !! other = tenants w !! other) /\
  agenda_jobs w' = agenda_jobs w /\
  exists events : list Event, dispatched w' = (dispatched w ++ events)%list.

(** The document (transactionId, transactionType) a stored row belongs to. *)
Definition of_document (transactionId transactionType : JsVal)
    (row : JsObject) : Prop :=
  prop row "transactionId" = transactionId /\
  prop row "transactionType" = transactionType.

Module Scenarios.

(** Tenant 1 with two stored transactions of bill 42 and one of bill 43;
    tenant 2 with one transaction of bill 42. *)
Definition stored_row (transactionId lot : Z) : JsObject :=
  <["transactionId" := VNumber (Num transactionId)]>
  (<["transactionType" := VString "Bill"]>
  (<["lotNumber" := VNumber (Num lot)]>
  (<["itemId" := VNumber (Num 7)]> ∅))).

Definition ledger_world : World :=
  set_tenant 2 (mkTenant ∅ [stored_row 42 9] [] ∅)
    (set_tenant 1
       (mkTenant ∅ [stored_row 42 1; stored_row 43 2; stored_row 42 1] []
          (<[LOT_NUMBER_KEY := VNumber (Num 3)]> ∅))
       Fixtures.fresh_world).

(** A collaborator whose query fails. *)
Definition failing_entries : Collaborators := {|
  getInventoryEntries := fun _ _ _ _ => Throw (ErrorExn "connection lost");
  costMethodComputer_computeItemCost := Fixtures.named_strategy;
  config_scheduleComputeItemCost := 10000;
|}.


End Scenarios.

(* ===================================================================== *)
(** ** Properties of the EntryTransformer *)
(* ===================================================================== *)

Section EntryTransformer_facts.

Lemma lookup_pick (o : JsObject) (paths : list string) (k : string) :
  pick o paths !! k = if decide (k ∈ paths) then o !! k else None.
Proof.
  induction paths as [|p paths IH].
  - unfold pick; cbn [foldr]. rewrite lookup_empty.
    destruct (decide (k ∈ [])) as [Hin|_]; [inversion Hin | reflexivity].
  - change (pick o (p :: paths))
      with (match o !! p with
            | Some v => <[p := v]> (pick o paths)
            | None => pick o paths
            end).
    destruct (decide (k = p)) as [->|Hne].
    + rewrite (decide_True (P := p ∈ p :: paths));
        [|apply elem_of_cons; by left].
      destruct (o !! p) eqn:Hp.
      * by rewrite lookup_insert_eq.
      * rewrite IH. by destruct (decide (p ∈ paths)).
    + assert (pick o paths !! k
              = if decide (k ∈ p :: paths) then o !! k else None) as Hrest.
      { rewrite IH.
        destruct (decide (k ∈ paths)) as [Hin|Hout],
                 (decide (k ∈ p :: paths)) as [Hin'|Hout'];
          try reflexivity.
        - exfalso. apply Hout', elem_of_cons. by right.
        - apply elem_of_cons in Hin' as [Heq|Hin']; [done|].
          exfalso. by apply Hout. }
      destruct (o !! p); [rewrite lookup_insert_ne by done|]; exact Hrest.
Qed.

(** A callback that always completes normally maps the whole array. *)
Lemma array_map_normal {A B : Type} (f : A -> Completion B)
    (P : A -> B -> Prop) (xs : list A) :
  (forall x, exists y, f x = Normal y /\ P x y) ->
  exists ys, array_map f xs = Normal ys /\ Forall2 P xs ys.
Proof.
  intros Hf. induction xs as [|x xs [ys [Hys HP]]]; simpl.
  - exists []. split; [reflexivity | constructor].
  - destruct (Hf x) as [y [Hy Hxy]]. rewrite Hy, Hys.
    exists (y :: ys). split; [reflexivity | by constructor].
Qed.

(** The fields of one output transaction. *)
Lemma transform_entry_fields direction date lotNumber (entry : JsObject) :
  exists tx : JsObject,
    transform_entry direction date lotNumber entry = Normal tx /\
    tx !! "direction" = Some (direction_val direction) /\
    tx !! "date" = Some date /\
    tx !! "lotNumber" = Some (VNumber lotNumber) /\
    tx !! "itemId" = entry !! "itemId" /\
    tx !! "quantity" = entry !! "quantity" /\
    tx !! "rate" = entry !! "rate" /\
    tx !! "transactionType" = Some (prop entry "referenceType") /\
    tx !! "transactionId" = Some (prop entry "referenceId") /\
    tx !! "entryId" = Some (prop entry "id").
Proof.
  eexists. split; [reflexivity|].
  repeat split;
    repeat (rewrite lookup_insert_ne; [|discriminate]);
    try apply lookup_insert_eq;
    rewrite lookup_pick; apply decide_True;
    repeat (first [ by apply elem_of_cons; left
                  | apply elem_of_cons; right ]).
Qed.

(** C8.  For every list of item entries and every direction, date and lot
    number, [transformItemEntriesToInventory] returns a list as long as
    the input; the transaction at each position carries the direction,
    date and lot number of the call, the [itemId], [quantity] and [rate]
    of the entry at that position, the entry's [referenceType] and
    [referenceId] as [transactionType] and [transactionId], and the
    entry's [id] as [entryId]. *)
Theorem transformItemEntriesToInventory_shape
    (itemEntries : list JsObject) direction date lotNumber :
  exists txs : list JsObject,
    transformItemEntriesToInventory itemEntries direction date lotNumber
      = Normal txs /\
    List.length txs = List.length itemEntries /\
    forall (i : nat) (entry : JsObject),
      itemEntries !! i = Some entry ->
      exists tx : JsObject,
        txs !! i = Some tx /\
        tx !! "direction" = Some (direction_val direction) /\
        tx !! "date" = Some date /\
        tx !! "lotNumber" = Some (VNumber lotNumber) /\
        tx !! "itemId" = entry !! "itemId" /\
        tx !! "quantity" = entry !! "quantity" /\
        tx !! "rate" = entry !! "rate" /\
        tx !! "transactionType" = Some (prop entry "referenceType") /\
        tx !! "transactionId" = Some (prop entry "referenceId") /\
        tx !! "entryId" = Some (prop entry "id").
Proof.
  unfold transformItemEntriesToInventory.
  destruct (array_map_normal (transform_entry direction date lotNumber)
              (fun entry tx =>
                 tx !! "direction" = Some (direction_val direction) /\
                 tx !! "date" = Some date /\
                 tx !! "lotNumber" = Some (VNumber lotNumber) /\
                 tx !! "itemId" = entry !! "itemId" /\
                 tx !! "quantity" = entry !! "quantity" /\
                 tx !! "rate" = entry !! "rate" /\
                 tx !! "transactionType" = Some (prop entry "referenceType") /\
                 tx !! "transactionId" = Some (prop entry "referenceId") /\
                 tx !! "entryId" = Some (prop entry "id"))
              itemEntries) as [txs [Heq Hall]].
  { intros entry.
    destruct (transform_entry_fields direction date lotNumber entry)
      as [tx [Htx Hfields]].
    by exists tx. }
  exists txs. split; [exact Heq|]. split.
  - symmetry. by eapply Forall2_length.
  - intros i entry Hi.
    destruct (Forall2_lookup_l _ _ _ _ _ Hall Hi) as [tx [Htx Hfields]].
    by exists tx.
Qed.

(** C9, as the code has it.  [transformItemEntriesToInventory] validates
    nothing: it completes normally on every list of entries, malformed or
    not, and a field that reads [undefined] on an entry reads [undefined]
    on its transaction. *)
Theorem transformItemEntriesToInventory_never_fails
    (itemEntries : list JsObject) direction date lotNumber :
  (forall e, transformItemEntriesToInventory itemEntries direction date
               lotNumber <> Throw e) /\
  exists txs : list JsObject,
    transformItemEntriesToInventory itemEntries direction date lotNumber
      = Normal txs /\
    Forall2 (fun entry tx =>
               prop tx "itemId" = prop entry "itemId" /\
               prop tx "quantity" = prop entry "quantity" /\
               prop tx "rate" = prop entry "rate")
      itemEntries txs.
Proof.
  unfold transformItemEntriesToInventory.
  destruct (array_map_normal (transform_entry direction date lotNumber)
              (fun entry tx =>
                 prop tx "itemId" = prop entry "itemId" /\
                 prop tx "quantity" = prop entry "quantity" /\
                 prop tx "rate" = prop entry "rate")
              itemEntries) as [txs [Heq Hall]].
  { intros entry.
    destruct (transform_entry_fields direction date lotNumber entry)
      as [tx (Htx & _ & _ & _ & Hi & Hq & Hr & _)].
    exists tx. unfold prop. by rewrite Hi, Hq, Hr. }
  split.
  - intros e He. rewrite Heq in He. discriminate.
  - by exists txs.
Qed.

(** C9, as stated, fails: an entry without [itemId] is malformed, and the
    transformation of it completes normally, with a transaction whose
    [itemId] is missing. *)
Lemma transformItemEntriesToInventory_accepts_malformed :
  malformed Fixtures.line_entry_without_itemId /\
  (forall e, transformItemEntriesToInventory
               [Fixtures.line_entry_without_itemId] IN (VDate 1000) (Num 1)
             <> Throw e) /\
  exists tx : JsObject,
    transformItemEntriesToInventory
      [Fixtures.line_entry_without_itemId] IN (VDate 1000) (Num 1)
      = Normal [tx] /\
    tx !! "itemId" = None.
Proof.
  split; [left; reflexivity|]. split.
  - intros e He. vm_compute in He. discriminate.
  - eexists. split; [reflexivity|]. vm_compute. reflexivity.
Qed.

End EntryTransformer_facts.

(* ===================================================================== *)
(** ** Properties of the LotSequencer and the TransactionRecorder *)
(* ===================================================================== *)

Section LotSequencer_facts.

Context `{C : Collaborators}.

Lemma tenant_of_set_tenant (w : World) (tenantId : Z) (t : Tenant) :
  tenant_of (set_tenant tenantId t w) tenantId = t.
Proof. unfold tenant_of, set_tenant; simpl. by rewrite lookup_insert_eq. Qed.

(** One increment, spelled out: the number returned is the number stored. *)
Lemma incrementNextLotNumber_step (tenantId : Z) (w : World) :
  exists (n : JsNumber) (w' : World),
    incrementNextLotNumber tenantId w = (Normal n, w') /\
    stored_lot_number w' tenantId = Some (VNumber n) /\
    n = match stored_lot_number w tenantId with
        | Some value =>
            if truthy value then num_add (parseInt value) (Num 1) else Num 1
        | None => Num 1
        end.
Proof.
  unfold incrementNextLotNumber, bind, settings_find, settings_set,
    settings_save, ret, stored_lot_number.
  do 2 eexists. split; [reflexivity|]. split; [|reflexivity].
  rewrite tenant_of_set_tenant. simpl. by rewrite lookup_insert_eq.
Qed.

(** From a stored positive number [k], [n] increments return
    [k+1 .. k+n] and leave [k+n]. *)
Lemma incrementNextLotNumber_times_from (n : nat) (tenantId k : Z) (w : World) :
  1 <= k ->
  stored_lot_number w tenantId = Some (VNumber (Num k)) ->
  fst (incrementNextLotNumber_times n tenantId w)
    = map (fun j => Normal (Num (k + Z.of_nat j))) (seq 1 n) /\
  stored_lot_number (snd (incrementNextLotNumber_times n tenantId w)) tenantId
    = Some (VNumber (Num (k + Z.of_nat n))).
Proof.
  revert k w. induction n as [|n IH]; intros k w Hk Hst.
  - simpl. split; [reflexivity|]. rewrite Hst. do 3 f_equal. lia.
  - cbn [incrementNextLotNumber_times].
    destruct (incrementNextLotNumber_step tenantId w) as (r & w1 & Hrun & Hst1 & Hr).
    rewrite Hrun. rewrite Hst in Hr. simpl in Hr.
    replace (k =? 0) with false in Hr by lia. simpl in Hr. subst r.
    destruct (IH (k + 1) w1 ltac:(lia) Hst1) as [Hrs Hfin].
    destruct (incrementNextLotNumber_times n tenantId w1) as [rs w2].
    simpl in *. split.
    + f_equal.
      rewrite Hrs, <- (seq_shift n 1), map_map.
      apply map_ext. intros j. do 2 f_equal. lia.
    + rewrite Hfin. do 3 f_equal. lia.
Qed.

(** C6.  For every N >= 1, N sequential calls of [incrementNextLotNumber]
    for a tenant whose counter key is unset return 1, 2, ..., N, and the
    counter stored after the N calls is N. *)
Theorem incrementNextLotNumber_sequence (N : nat) (tenantId : Z) (w : World) :
  (1 <= N)%nat ->
  stored_lot_number w tenantId = None ->
  fst (incrementNextLotNumber_times N tenantId w)
    = map (fun k => Normal (Num (Z.of_nat k))) (seq 1 N) /\
  stored_lot_number (snd (incrementNextLotNumber_times N tenantId w)) tenantId
    = Some (VNumber (Num (Z.of_nat N))).
Proof.
  intros HN Hunset. destruct N as [|n]; [lia|].
  cbn [incrementNextLotNumber_times].
  destruct (incrementNextLotNumber_step tenantId w) as (r & w1 & Hrun & Hst1 & Hr).
  rewrite Hrun. rewrite Hunset in Hr. subst r.
  destruct (incrementNextLotNumber_times_from n tenantId 1 w1 ltac:(lia) Hst1)
    as [Hrs Hfin].
  destruct (incrementNextLotNumber_times n tenantId w1) as [rs w2].
  simpl in *. split.
  - f_equal. rewrite Hrs, <- (seq_shift n 1), map_map.
    apply map_ext. intros j. do 2 f_equal. lia.
  - rewrite Hfin. do 3 f_equal. lia.
Qed.

(** C7.  When the entries collaborator returns no inventory entry for the
    document, [recordInventoryTransactionsFromItemsEntries] returns and
    leaves the world as it was: no transaction inserted, the lot counter
    where it stood, no event dispatched. *)
Theorem recordInventoryTransactionsFromItemsEntries_no_entries
    (tenantId transactionId : Z) (transactionType : string)
    (transactionDate : JsVal)
    (transactionDirection : TInventoryTransactionDirection)
    (override : bool) (w : World) :
  getInventoryEntries tenantId transactionType transactionId w = Normal [] ->
  let '(r, w') :=
    recordInventoryTransactionsFromItemsEntries tenantId transactionId
      transactionType transactionDate transactionDirection override w in
  r = Normal tt /\
  w' = w /\
  InventoryTransaction_rows (tenant_of w' tenantId)
    = InventoryTransaction_rows (tenant_of w tenantId) /\
  stored_lot_number w' tenantId = stored_lot_number w tenantId /\
  dispatched w' = dispatched w.
Proof.
  intros Hnone.
  cbv [recordInventoryTransactionsFromItemsEntries bind getNextLotNumber
         settings_find ret].
  rewrite Hnone. simpl. done.
Qed.

(** Without override, the batch is appended to the table as it is, and
    nothing else moves. *)
Lemma record_all_no_override (tenantId : Z) (txs : list JsObject) (w : World) :
  exists (stored : list JsObject) (w' : World),
    record_all tenantId txs false w = (Normal stored, w') /\
    InventoryTransaction_rows (tenant_of w' tenantId)
      = (InventoryTransaction_rows (tenant_of w tenantId)
         ++ map (fun tx => <["lotNumber" := prop tx "lotNumber"]> tx) txs)%list /\
    settings_meta (tenant_of w' tenantId) = settings_meta (tenant_of w tenantId) /\
    dispatched w' = dispatched w.
Proof.
  revert w. induction txs as [|tx txs IH]; intros w.
  - exists [], w. simpl. by rewrite app_nil_r.
  - cbn [record_all].
    cbv [bind recordInventoryTransaction InventoryTransaction_insert ret].
    match goal with
    | |- context [record_all tenantId txs false ?w1] =>
        destruct (IH w1) as (stored & w' & Hrun & Hrows & Hset & Hev)
    end.
    rewrite Hrun.
    rewrite tenant_of_set_tenant in Hrows, Hset. simpl in Hrows, Hset, Hev.
    do 2 eexists. split; [reflexivity|].
    rewrite Hrows, Hset, Hev, <- app_assoc. done.
Qed.

(** The effect of one call that finds inventory entries, without override:
    every entry is stored with the number [getNextLotNumber] gave, and the
    counter becomes what [incrementNextLotNumber] computes. *)
Lemma recordInventoryTransactionsFromItemsEntries_effect
    (tenantId transactionId : Z) (transactionType : string)
    (transactionDate : JsVal)
    (transactionDirection : TInventoryTransactionDirection)
    (w : World) (entries : list JsObject) :
  getInventoryEntries tenantId transactionType transactionId w
    = Normal entries ->
  entries <> [] ->
  exists w' : World,
    recordInventoryTransactionsFromItemsEntries tenantId transactionId
      transactionType transactionDate transactionDirection false w
      = (Normal tt, w') /\
    stamped_lot_numbers w' tenantId
      = (stamped_lot_numbers w tenantId
         ++ List.repeat
              (VNumber match stored_lot_number w tenantId with
                       | Some value =>
                           if truthy value then parseInt value else Num 1
                       | None => Num 1
                       end)
              (List.length entries))%list /\
    stored_lot_number w' tenantId
      = Some (VNumber match stored_lot_number w tenantId with
                      | Some value =>
                          if truthy value
                          then num_add (parseInt value) (Num 1) else Num 1
                      | None => Num 1
                      end).
Proof.
  intros Hentries Hne.
  cbv [recordInventoryTransactionsFromItemsEntries bind getNextLotNumber
         settings_find ret lift recordInventoryTransactions
         eventDispatcher_dispatch].
  rewrite Hentries.
  destruct entries as [|e0 entries0] eqn:Hes; [done|]. rewrite <- Hes in *.
  replace (Datatypes.length entries <=? 0)%nat with false
    by (subst entries; reflexivity).
  fold (stored_lot_number w tenantId).
  set (lot := match stored_lot_number w tenantId with
              | Some value => if truthy value then parseInt value else Num 1
              | None => Num 1
              end).
  destruct (array_map_normal
              (transform_entry transactionDirection transactionDate lot)
              (fun _ tx => tx !! "lotNumber" = Some (VNumber lot)) entries)
    as (txs & Htxs & Hlots).
  { intros entry.
    destruct (transform_entry_fields transactionDirection transactionDate
                lot entry) as (tx & Htx & _ & _ & Hlot & _).
    by exists tx. }
  unfold transformItemEntriesToInventory. rewrite Htxs.
  destruct (record_all_no_override tenantId txs w)
    as (stored & w1 & Hrun & Hrows & Hset & Hev).
  rewrite Hrun.
  match goal with
  | |- context [incrementNextLotNumber tenantId ?w2] =>
      destruct (incrementNextLotNumber_step tenantId w2)
        as (n & w3 & Hinc & Hst3 & Hn);
      assert (stored_lot_number w2 tenantId = stored_lot_number w tenantId)
        as Hsame by (unfold stored_lot_number, tenant_of; simpl;
                     fold (tenant_of w1 tenantId); by rewrite Hset);
      assert (stamped_lot_numbers w3 tenantId = stamped_lot_numbers w1 tenantId)
        as Hrows3
  end.
  { revert Hinc.
    cbv [incrementNextLotNumber bind settings_find settings_set settings_save
           ret].
    intros [= _ <-]. unfold stamped_lot_numbers.
    rewrite tenant_of_set_tenant. reflexivity. }
  rewrite Hinc. exists w3. split; [reflexivity|]. split.
  - rewrite Hrows3. unfold stamped_lot_numbers. rewrite Hrows, map_app.
    f_equal. rewrite map_map.
    rewrite (Forall2_length _ _ _ Hlots).
    clear -Hlots. induction Hlots as [|e tx es txs Hlot _ IH]; [reflexivity|].
    simpl. f_equal; [|exact IH].
    unfold prop. rewrite lookup_insert_eq. unfold prop. by rewrite Hlot.
  - rewrite Hst3, Hn, Hsame. reflexivity.
Qed.

(** Once the counter holds a positive number [k], a call stamps [k] and
    leaves [k + 1]: from there on the numbers of successive calls grow. *)
Lemma recordInventoryTransactionsFromItemsEntries_from_set
    (tenantId transactionId : Z) (transactionType : string)
    (transactionDate : JsVal)
    (transactionDirection : TInventoryTransactionDirection)
    (w : World) (entries : list JsObject) (k : Z) :
  getInventoryEntries tenantId transactionType transactionId w
    = Normal entries ->
  entries <> [] ->
  1 <= k ->
  stored_lot_number w tenantId = Some (VNumber (Num k)) ->
  exists w' : World,
    recordInventoryTransactionsFromItemsEntries tenantId transactionId
      transactionType transactionDate transactionDirection false w
      = (Normal tt, w') /\
    stamped_lot_numbers w' tenantId
      = (stamped_lot_numbers w tenantId
         ++ List.repeat (VNumber (Num k)) (List.length entries))%list /\
    stored_lot_number w' tenantId = Some (VNumber (Num (k + 1))).
Proof.
  intros Hentries Hne Hk Hst.
  destruct (recordInventoryTransactionsFromItemsEntries_effect tenantId
              transactionId transactionType transactionDate
              transactionDirection w entries Hentries Hne)
    as (w' & Hrun & Hrows & Hst').
  rewrite Hst in Hrows, Hst'. simpl in Hrows, Hst'.
  replace (k =? 0) with false in Hrows, Hst' by lia. simpl in Hrows, Hst'.
  by exists w'.
Qed.

(** With the counter unset, a call stamps 1 and leaves 1, the number the
    next call reads. *)
Lemma recordInventoryTransactionsFromItemsEntries_from_unset
    (tenantId transactionId : Z) (transactionType : string)
    (transactionDate : JsVal)
    (transactionDirection : TInventoryTransactionDirection)
    (w : World) (entries : list JsObject) :
  getInventoryEntries tenantId transactionType transactionId w
    = Normal entries ->
  entries <> [] ->
  stored_lot_number w tenantId = None ->
  exists w' : World,
    recordInventoryTransactionsFromItemsEntries tenantId transactionId
      transactionType transactionDate transactionDirection false w
      = (Normal tt, w') /\
    stamped_lot_numbers w' tenantId
      = (stamped_lot_numbers w tenantId
         ++ List.repeat (VNumber (Num 1)) (List.length entries))%list /\
    stored_lot_number w' tenantId = Some (VNumber (Num 1)).
Proof.
  intros Hentries Hne Hst.
  destruct (recordInventoryTransactionsFromItemsEntries_effect tenantId
              transactionId transactionType transactionDate
              transactionDirection w entries Hentries Hne)
    as (w' & Hrun & Hrows & Hst').
  rewrite Hst in Hrows, Hst'.
  by exists w'.
Qed.

(** The first two documents of a tenant: with the counter unset, two
    successive calls that each find entries stamp the same number, 1. *)
Lemma first_two_documents_share_lot_number
    (tenantId id1 id2 : Z) (type1 type2 : string) (date1 date2 : JsVal)
    (direction1 direction2 : TInventoryTransactionDirection)
    (w : World) (entries1 entries2 : list JsObject) :
  stored_lot_number w tenantId = None ->
  getInventoryEntries tenantId type1 id1 w = Normal entries1 ->
  entries1 <> [] ->
  getInventoryEntries tenantId type2 id2
    (snd (recordInventoryTransactionsFromItemsEntries tenantId id1 type1
            date1 direction1 false w)) = Normal entries2 ->
  entries2 <> [] ->
  exists w' : World,
    (recordInventoryTransactionsFromItemsEntries tenantId id1 type1
       date1 direction1 false ;;;
     recordInventoryTransactionsFromItemsEntries tenantId id2 type2
       date2 direction2 false) w = (Normal tt, w') /\
    stamped_lot_numbers w' tenantId
      = (stamped_lot_numbers w tenantId
         ++ List.repeat (VNumber (Num 1)) (List.length entries1)
         ++ List.repeat (VNumber (Num 1)) (List.length entries2))%list.
Proof.
  intros Hunset He1 Hne1 He2 Hne2.
  destruct (recordInventoryTransactionsFromItemsEntries_from_unset tenantId
              id1 type1 date1 direction1 w entries1 He1 Hne1 Hunset)
    as (w1 & Hrun1 & Hrows1 & Hst1).
  rewrite Hrun1 in He2. simpl in He2.
  destruct (recordInventoryTransactionsFromItemsEntries_from_set tenantId
              id2 type2 date2 direction2 w1 entries2 1 He2 Hne2
              ltac:(lia) Hst1)
    as (w2 & Hrun2 & Hrows2 & _).
  exists w2. unfold bind at 1. rewrite Hrun1, Hrun2.
  split; [reflexivity|]. by rewrite Hrows2, Hrows1, <- app_assoc.
Qed.

End LotSequencer_facts.

(** C2, at the input where the code departs from it.  For a tenant whose
    counter is unset, two documents recorded one after the other, each
    with one inventory entry, both complete, and their transactions carry
    the same lot number, 1. *)
Theorem record_two_documents_reuse_lot_number :
  let '(r, w') := Fixtures.record_two_documents Fixtures.fresh_world in
  r = Normal tt /\
  stamped_lot_numbers w' 1 = [VNumber (Num 1); VNumber (Num 1)].
Proof. vm_compute. split; reflexivity. Qed.

(* ===================================================================== *)
(** ** Properties of the CostComputeDispatcher *)
(* ===================================================================== *)

Section CostComputeDispatcher_facts.

Context `{C : Collaborators}.

(** For an inventory item, whatever else the item holds, the call is the
    [computeItemCost()] of the average-cost strategy. *)
Lemma computeItemCost_inventory_item
    (tenantId fromDate itemId : Z) (w : World) (item : JsObject) :
  Item_rows (tenant_of w tenantId) !! itemId = Some item ->
  prop item "type" = VString "inventory" ->
  computeItemCost tenantId fromDate itemId w
    = costMethodComputer_computeItemCost
        (NewInventoryAverageCost tenantId fromDate itemId) w.
Proof.
  intros Hitem Htype.
  cbv [computeItemCost bind Item_findById]. rewrite Hitem, Htype.
  rewrite bool_decide_eq_true_2 by reflexivity. reflexivity.
Qed.

(** C5.  For an existing item whose type is not 'inventory',
    [computeItemCost] throws the error of the inventory-type guard and
    leaves the world as it was, whatever the strategies would do: no cost
    computation, no InventoryLotCost record. *)
Theorem computeItemCost_not_inventory
    (tenantId fromDate itemId : Z) (w : World) (item : JsObject) :
  Item_rows (tenant_of w tenantId) !! itemId = Some item ->
  prop item "type" <> VString "inventory" ->
  let '(r, w') := computeItemCost tenantId fromDate itemId w in
  r = Throw (ErrorExn
               "You could not compute item cost has no inventory type.") /\
  w' = w /\
  InventoryCostLotTracker_rows (tenant_of w' tenantId)
    = InventoryCostLotTracker_rows (tenant_of w tenantId).
Proof.
  intros Hitem Htype.
  cbv [computeItemCost bind Item_findById]. rewrite Hitem.
  rewrite bool_decide_eq_false_2 by exact Htype. simpl. done.
Qed.

(** C10.  When the item lookup finds nothing, [computeItemCost] does not
    throw the error of the inventory-type guard: reading [type] of the
    missing item throws a TypeError before the guard is decided, and the
    world is as it was. *)
Theorem computeItemCost_missing_item
    (tenantId fromDate itemId : Z) (w : World) :
  Item_rows (tenant_of w tenantId) !! itemId = None ->
  let '(r, w') := computeItemCost tenantId fromDate itemId w in
  (exists message, r = Throw (TypeErrorExn message)) /\
  r <> Throw (ErrorExn
                "You could not compute item cost has no inventory type.") /\
  w' = w.
Proof.
  intros Hitem.
  cbv [computeItemCost bind Item_findById]. rewrite Hitem. simpl.
  split; [by eexists|]. split; [discriminate | reflexivity].
Qed.

End CostComputeDispatcher_facts.

(** C1, at the input where the code departs from it.  Item 7 of tenant 1
    is an inventory item configured FIFO; [computeItemCost] on it runs the
    average-cost strategy, for every choice of collaborators, and not the
    lot tracker: the [switch] is decided on the constant 'AVG'. *)
Theorem computeItemCost_FIFO_item_runs_average :
  (exists item : JsObject,
     Item_rows (tenant_of Fixtures.items_world 1) !! 7 = Some item /\
     prop item "type" = VString "inventory" /\
     prop item "costMethod" = VString "FIFO") /\
  (forall (C : Collaborators) (fromDate : Z),
     computeItemCost 1 fromDate 7 Fixtures.items_world
       = costMethodComputer_computeItemCost
           (NewInventoryAverageCost 1 fromDate 7) Fixtures.items_world) /\
  @computeItemCost Fixtures.one_line_documents 1 0 7 Fixtures.items_world
    = (Normal (VString "InventoryAverageCost"), Fixtures.items_world) /\
  switch_cost_method "FIFO" 1 0 7 = Some (NewInventoryCostLotTracker 1 0 7).
Proof.
  split; [eexists; split; [vm_compute; reflexivity | split; reflexivity]|].
  split; [|split; vm_compute; reflexivity].
  intros C fromDate.
  eapply computeItemCost_inventory_item; [vm_compute; reflexivity | reflexivity].
Qed.

(* ===================================================================== *)
(** ** Properties of the ComputeScheduler *)
(* ===================================================================== *)

Section ComputeScheduler_facts.

Context `{C : Collaborators}.

Lemma filter_filter_andb {A : Type} (p q : A -> bool) (l : list A) :
  List.filter p (List.filter q l) = List.filter (fun x => q x && p x) l.
Proof.
  induction l as [|x l IH]; [reflexivity|].
  simpl. destruct (q x); simpl; [destruct (p x)|]; by rewrite IH.
Qed.

(** The pending jobs of (tenantId, itemId) that survive the [cancel] are
    those that do not start after the requested date. *)
Lemma pending_after_cancel (tenantId itemId startingDate : Z) (l : list Job) :
  List.filter (pending_compute_job tenantId itemId)
    (List.filter
       (fun j => negb (upper_starting_date tenantId itemId startingDate j)) l)
  = List.filter (fun j => data_startingDate (job_data j) <=? startingDate)
      (List.filter (pending_compute_job tenantId itemId) l).
Proof.
  rewrite !filter_filter_andb. apply List.filter_ext. intros j.
  unfold upper_starting_date.
  destruct (pending_compute_job tenantId itemId j); simpl; [|reflexivity].
  rewrite andb_true_r. apply eq_sym, Z.leb_antisym.
Qed.

(** The jobs that the [jobs] query finds after the [cancel]. *)
Lemma depends_after_cancel (tenantId itemId startingDate : Z) (l : list Job) :
  List.filter (lower_starting_date tenantId itemId startingDate)
    (List.filter
       (fun j => negb (upper_starting_date tenantId itemId startingDate j)) l)
  = List.filter (fun j => data_startingDate (job_data j) <=? startingDate)
      (List.filter (pending_compute_job tenantId itemId) l).
Proof.
  rewrite !filter_filter_andb. apply List.filter_ext. intros j.
  unfold upper_starting_date, lower_starting_date.
  destruct (pending_compute_job tenantId itemId j); simpl; [|reflexivity].
  rewrite (Z.leb_antisym startingDate (data_startingDate (job_data j))).
  by destruct (startingDate <? data_startingDate (job_data j)).
Qed.

Lemma lower_is_pending_not_after (tenantId itemId startingDate : Z)
    (l : list Job) :
  List.filter (lower_starting_date tenantId itemId startingDate) l
  = List.filter (fun j => data_startingDate (job_data j) <=? startingDate)
      (List.filter (pending_compute_job tenantId itemId) l).
Proof. rewrite filter_filter_andb. reflexivity. Qed.

Lemma compute_item_cost_job_pending (tenantId itemId startingDate : Z) :
  pending_compute_job tenantId itemId
    (compute_item_cost_job tenantId itemId startingDate) = true.
Proof.
  unfold pending_compute_job, compute_item_cost_job. simpl.
  rewrite !bool_decide_eq_true_2; done.
Qed.

(** What one call does, in terms of the pending jobs of (tenantId, itemId)
    that do not start after the requested date ([kept]): with none of
    them the job is queued and the event dispatched, otherwise the call
    stops after the cancellation. *)
Lemma scheduleComputeItemCost_effect (tenantId itemId startingDate : Z)
    (w : World) :
  let kept :=
    List.filter (fun j => data_startingDate (job_data j) <=? startingDate)
      (pending_jobs tenantId itemId w) in
  let cancelled :=
    List.filter
      (fun j => negb (upper_starting_date tenantId itemId startingDate j))
      (agenda_jobs w) in
  exists w' : World,
    scheduleComputeItemCost tenantId itemId startingDate w = (Normal tt, w') /\
    tenants w' = tenants w /\
    match kept with
    | [] =>
        agenda_jobs w'
          = (cancelled
             ++ [compute_item_cost_job tenantId itemId startingDate])%list /\
        dispatched w'
          = (dispatched w
             ++ [onComputeItemCostJobScheduled startingDate itemId tenantId])%list /\
        pending_jobs tenantId itemId w'
          = [compute_item_cost_job tenantId itemId startingDate]
    | _ :: _ =>
        agenda_jobs w' = cancelled /\
        dispatched w' = dispatched w /\
        pending_jobs tenantId itemId w' = kept
    end.
Proof.
  intros kept cancelled.
  cbv [scheduleComputeItemCost bind agenda_cancel agenda_jobs_matching
         agenda_schedule eventDispatcher_dispatch ret].
  cbn [agenda_jobs tenants dispatched].
  fold cancelled.
  assert (List.filter (lower_starting_date tenantId itemId startingDate)
            cancelled = kept) as Hdeps
    by apply depends_after_cancel.
  assert (List.filter (pending_compute_job tenantId itemId) cancelled = kept)
    as Hpend by apply pending_after_cancel.
  rewrite Hdeps.
  destruct kept as [|j0 kept0] eqn:Hkept; simpl.
  - eexists. split; [reflexivity|]. split; [reflexivity|].
    split; [reflexivity|]. split; [reflexivity|].
    unfold pending_jobs. cbn [agenda_jobs].
    rewrite List.filter_app, Hpend. cbn [List.filter app].
    fold (compute_item_cost_job tenantId itemId startingDate).
    by rewrite compute_item_cost_job_pending.
  - eexists. split; [reflexivity|]. split; [reflexivity|].
    split; [reflexivity|]. split; [reflexivity|].
    unfold pending_jobs. cbn [agenda_jobs]. exact Hpend.
Qed.

(** The scheduler keeps its queue discipline: when (tenantId, itemId) has
    at most one pending job before a call, it has exactly one after. *)
Lemma scheduleComputeItemCost_one_pending (tenantId itemId startingDate : Z)
    (w : World) :
  (List.length (pending_jobs tenantId itemId w) <= 1)%nat ->
  List.length
    (pending_jobs tenantId itemId
       (snd (scheduleComputeItemCost tenantId itemId startingDate w))) = 1%nat.
Proof.
  intros Hone.
  destruct (scheduleComputeItemCost_effect tenantId itemId startingDate w)
    as (w' & Hrun & _ & Hcases).
  rewrite Hrun. simpl.
  destruct (pending_jobs tenantId itemId w) as [|j [|j' l]];
    simpl in Hone, Hcases; [| |lia].
  - by destruct Hcases as (_ & _ & ->).
  - destruct (data_startingDate (job_data j) <=? startingDate);
      by destruct Hcases as (_ & _ & ->).
Qed.

(** C3.  Let D1 < D2 and let no pending job of (t, i) start at or before
    D2 (so that the first call queues its job).  After
    [scheduleComputeItemCost t i D2] and then
    [scheduleComputeItemCost t i D1], the job starting at D2, pending
    after the first call, is no longer in the queue, and (t, i) has
    exactly one pending job, which starts at D1. *)
Theorem scheduleComputeItemCost_earlier_supersedes
    (tenantId itemId D1 D2 : Z) (w : World) :
  D1 < D2 ->
  List.filter (lower_starting_date tenantId itemId D2) (agenda_jobs w) = [] ->
  let '(r1, w1) := scheduleComputeItemCost tenantId itemId D2 w in
  let '(r2, w2) := scheduleComputeItemCost tenantId itemId D1 w1 in
  r1 = Normal tt /\ r2 = Normal tt /\
  pending_jobs tenantId itemId w1 = [compute_item_cost_job tenantId itemId D2] /\
  ~ In (compute_item_cost_job tenantId itemId D2) (agenda_jobs w2) /\
  pending_jobs tenantId itemId w2 = [compute_item_cost_job tenantId itemId D1].
Proof.
  intros Hlt Hnone.
  destruct (scheduleComputeItemCost_effect tenantId itemId D2 w)
    as (w1 & Hrun1 & _ & Hcase1).
  rewrite lower_is_pending_not_after in Hnone.
  unfold pending_jobs in Hcase1 at 1. rewrite Hnone in Hcase1.
  destruct Hcase1 as (_ & _ & Hpend1).
  destruct (scheduleComputeItemCost_effect tenantId itemId D1 w1)
    as (w2 & Hrun2 & _ & Hcase2).
  rewrite Hpend1 in Hcase2. cbn [List.filter] in Hcase2.
  unfold compute_item_cost_job in Hcase2 at 1. cbn in Hcase2.
  replace (D2 <=? D1) with false in Hcase2 by lia.
  destruct Hcase2 as (_ & _ & Hpend2).
  rewrite Hrun1, Hrun2.
  repeat split; try assumption.
  intros Hin.
  assert (In (compute_item_cost_job tenantId itemId D2)
            (pending_jobs tenantId itemId w2)) as Hin2.
  { unfold pending_jobs. apply List.filter_In. split; [exact Hin|].
    apply compute_item_cost_job_pending. }
  rewrite Hpend2 in Hin2. destruct Hin2 as [Heq|[]].
  unfold compute_item_cost_job in Heq. injection Heq as Heq. lia.
Qed.

(** C4.  Let D1 < D2, let the queue hold a pending job of (t, i) that
    starts at D1, and let it be the only pending job of (t, i) that does
    not start after D2 (as it is in a queue with at most one pending job
    per (t, i), which sequential scheduling maintains).  Then
    [scheduleComputeItemCost t i D2] queues no job (the queue after is
    the queue before less what was cancelled, and holds no job starting
    at D2 for (t, i)), dispatches no event, and leaves exactly one pending
    job for (t, i), the one that starts at D1. *)
Theorem scheduleComputeItemCost_already_covered
    (tenantId itemId D1 D2 : Z) (w : World) (j : Job) :
  D1 < D2 ->
  In j (agenda_jobs w) ->
  pending_compute_job tenantId itemId j = true ->
  data_startingDate (job_data j) = D1 ->
  (List.length
     (List.filter (lower_starting_date tenantId itemId D2) (agenda_jobs w))
   <= 1)%nat ->
  let '(r, w') := scheduleComputeItemCost tenantId itemId D2 w in
  r = Normal tt /\
  agenda_jobs w'
    = List.filter
        (fun j => negb (upper_starting_date tenantId itemId D2 j))
        (agenda_jobs w) /\
  ~ In (compute_item_cost_job tenantId itemId D2) (agenda_jobs w') /\
  dispatched w' = dispatched w /\
  pending_jobs tenantId itemId w' = [j].
Proof.
  intros Hlt Hin Hpending Hdate Hone.
  assert (List.filter (lower_starting_date tenantId itemId D2) (agenda_jobs w)
          = [j]) as Hjobs.
  { assert (In j (List.filter (lower_starting_date tenantId itemId D2)
                    (agenda_jobs w))) as Hinp.
    { apply List.filter_In. split; [exact Hin|].
      unfold lower_starting_date. rewrite Hpending, Hdate. simpl. lia. }
    destruct (List.filter (lower_starting_date tenantId itemId D2)
                (agenda_jobs w)) as [|j0 [|j1 l]];
      simpl in Hone, Hinp; [done | | lia].
    destruct Hinp as [->|[]]. reflexivity. }
  rewrite lower_is_pending_not_after in Hjobs.
  fold (pending_jobs tenantId itemId w) in Hjobs.
  destruct (scheduleComputeItemCost_effect tenantId itemId D2 w)
    as (w' & Hrun & _ & Hcase).
  cbv zeta in Hcase. rewrite Hjobs in Hcase.
  destruct Hcase as (Hagenda & Hevents & Hpend).
  rewrite Hrun. repeat split; try assumption.
  intros Hnew.
  assert (In (compute_item_cost_job tenantId itemId D2)
            (pending_jobs tenantId itemId w')) as Hnew'.
  { unfold pending_jobs. apply List.filter_In. split; [exact Hnew|].
    apply compute_item_cost_job_pending. }
  rewrite Hpend in Hnew'. destruct Hnew' as [Heq|[]].
  rewrite Heq in Hdate. simpl in Hdate. lia.
Qed.

End ComputeScheduler_facts.

(* ===================================================================== *)
(** ** The properties at concrete inputs *)
(* ===================================================================== *)

Lemma incrementNextLotNumber_sequence_witness :
  (1 <= 3)%nat /\
  stored_lot_number Fixtures.fresh_world 1 = None /\
  fst (incrementNextLotNumber_times 3 1 Fixtures.fresh_world)
    = map (fun k => Normal (Num (Z.of_nat k))) (seq 1 3) /\
  stored_lot_number (snd (incrementNextLotNumber_times 3 1 Fixtures.fresh_world)) 1
    = Some (VNumber (Num (Z.of_nat 3))).
Proof.
  split; [lia|]. split; [reflexivity|].
  apply (incrementNextLotNumber_sequence 3 1 Fixtures.fresh_world);
    [lia | reflexivity].
Defined.

Lemma recordInventoryTransactionsFromItemsEntries_no_entries_witness :
  @getInventoryEntries Fixtures.no_line_documents 1 "Bill" 42
    Fixtures.items_world = Normal [] /\
  let '(r, w') :=
    @recordInventoryTransactionsFromItemsEntries Fixtures.no_line_documents
      1 42 "Bill" (VDate 1000) IN true Fixtures.items_world in
  r = Normal tt /\
  w' = Fixtures.items_world /\
  InventoryTransaction_rows (tenant_of w' 1)
    = InventoryTransaction_rows (tenant_of Fixtures.items_world 1) /\
  stored_lot_number w' 1 = stored_lot_number Fixtures.items_world 1 /\
  dispatched w' = dispatched Fixtures.items_world.
Proof.
  split; [reflexivity|].
  apply (@recordInventoryTransactionsFromItemsEntries_no_entries
           Fixtures.no_line_documents 1 42 "Bill" (VDate 1000) IN true
           Fixtures.items_world).
  reflexivity.
Defined.

Lemma computeItemCost_not_inventory_witness :
  Item_rows (tenant_of Fixtures.items_world 1) !! 8
    = Some Fixtures.service_item /\
  prop Fixtures.service_item "type" <> VString "inventory" /\
  let '(r, w') :=
    @computeItemCost Fixtures.one_line_documents 1 0 8 Fixtures.items_world in
  r = Throw (ErrorExn
               "You could not compute item cost has no inventory type.") /\
  w' = Fixtures.items_world /\
  InventoryCostLotTracker_rows (tenant_of w' 1)
    = InventoryCostLotTracker_rows (tenant_of Fixtures.items_world 1).
Proof.
  split; [vm_compute; reflexivity|].
  split; [vm_compute; discriminate|].
  apply (@computeItemCost_not_inventory Fixtures.one_line_documents 1 0 8
           Fixtures.items_world Fixtures.service_item);
    [vm_compute; reflexivity | vm_compute; discriminate].
Defined.

Lemma computeItemCost_missing_item_witness :
  Item_rows (tenant_of Fixtures.items_world 1) !! 9 = None /\
  let '(r, w') :=
    @computeItemCost Fixtures.one_line_documents 1 0 9 Fixtures.items_world in
  (exists message, r = Throw (TypeErrorExn message)) /\
  r <> Throw (ErrorExn
                "You could not compute item cost has no inventory type.") /\
  w' = Fixtures.items_world.
Proof.
  split; [vm_compute; reflexivity|].
  apply (@computeItemCost_missing_item Fixtures.one_line_documents 1 0 9
           Fixtures.items_world).
  vm_compute; reflexivity.
Defined.

Lemma scheduleComputeItemCost_earlier_supersedes_witness :
  100 < 200 /\
  List.filter (lower_starting_date 1 7 200)
    (agenda_jobs Fixtures.later_job_world) = [] /\
  let '(r1, w1) :=
    @scheduleComputeItemCost Fixtures.one_line_documents 1 7 200
      Fixtures.later_job_world in
  let '(r2, w2) :=
    @scheduleComputeItemCost Fixtures.one_line_documents 1 7 100 w1 in
  r1 = Normal tt /\ r2 = Normal tt /\
  pending_jobs 1 7 w1
    = [@compute_item_cost_job Fixtures.one_line_documents 1 7 200] /\
  ~ In (@compute_item_cost_job Fixtures.one_line_documents 1 7 200)
      (agenda_jobs w2) /\
  pending_jobs 1 7 w2
    = [@compute_item_cost_job Fixtures.one_line_documents 1 7 100].
Proof.
  split; [lia|]. split; [reflexivity|].
  apply (@scheduleComputeItemCost_earlier_supersedes
           Fixtures.one_line_documents 1 7 100 200 Fixtures.later_job_world);
    [lia | reflexivity].
Defined.

Lemma scheduleComputeItemCost_already_covered_witness :
  100 < 200 /\
  In (Fixtures.pending_job_at 100) (agenda_jobs Fixtures.earlier_job_world) /\
  pending_compute_job 1 7 (Fixtures.pending_job_at 100) = true /\
  data_startingDate (job_data (Fixtures.pending_job_at 100)) = 100 /\
  (List.length
     (List.filter (lower_starting_date 1 7 200)
        (agenda_jobs Fixtures.earlier_job_world)) <= 1)%nat /\
  let '(r, w') :=
    @scheduleComputeItemCost Fixtures.one_line_documents 1 7 200
      Fixtures.earlier_job_world in
  r = Normal tt /\
  agenda_jobs w'
    = List.filter (fun j => negb (upper_starting_date 1 7 200 j))
        (agenda_jobs Fixtures.earlier_job_world) /\
  ~ In (@compute_item_cost_job Fixtures.one_line_documents 1 7 200)
      (agenda_jobs w') /\
  dispatched w' = dispatched Fixtures.earlier_job_world /\
  pending_jobs 1 7 w' = [Fixtures.pending_job_at 100].
Proof.
  split; [lia|]. split; [right; left; reflexivity|].
  split; [reflexivity|]. split; [reflexivity|].
  split; [vm_compute; lia|].
  apply (@scheduleComputeItemCost_already_covered
           Fixtures.one_line_documents 1 7 100 200
           Fixtures.earlier_job_world (Fixtures.pending_job_at 100));
    [lia | right; left; reflexivity | reflexivity | reflexivity
    | vm_compute; lia].
Defined.

(* ===================================================================== *)
(** ** Further properties of the TransactionRecorder *)
(* ===================================================================== *)

Section TransactionRecorder_facts.

Context `{C : Collaborators}.

Lemma same_document_spec (transactionId transactionType : JsVal)
    (row : JsObject) :
  same_document transactionId transactionType row = true
  <-> of_document transactionId transactionType row.
Proof.
  unfold same_document, of_document.
  rewrite andb_true_iff, !bool_decide_eq_true. reflexivity.
Qed.

(** The row that [recordInventoryTransaction] inserts reads like the
    transaction it was given, on every property. *)
Lemma inserted_row_reads_alike (entry : JsObject) (k : string) :
  prop (<["lotNumber" := prop entry "lotNumber"]> entry) k = prop entry k.
Proof.
  unfold prop at 1 3. destruct (decide (k = "lotNumber")) as [->|Hne].
  - by rewrite lookup_insert_eq.
  - by rewrite lookup_insert_ne.
Qed.

Lemma filter_length_split {A : Type} (p : A -> bool) (l : list A) :
  (List.length (List.filter p l)
   + List.length (List.filter (fun x => negb (p x)) l))%nat = List.length l.
Proof.
  induction l as [|x l IH]; [reflexivity|].
  simpl. destruct (p x); simpl; lia.
Qed.

Lemma filter_none {A : Type} (p : A -> bool) (l : list A) :
  (forall x, In x l -> p x = false) -> List.filter p l = [].
Proof.
  induction l as [|x l IH]; intros Hall; [reflexivity|].
  simpl. rewrite (Hall x) by (by left). apply IH. intros y Hy.
  apply Hall. by right.
Qed.

Lemma filter_all {A : Type} (p : A -> bool) (l : list A) :
  (forall x, In x l -> p x = true) -> List.filter p l = l.
Proof.
  induction l as [|x l IH]; intros Hall; [reflexivity|].
  simpl. rewrite (Hall x) by (by left). f_equal. apply IH. intros y Hy.
  apply Hall. by right.
Qed.

Lemma tenant_of_insert (ts : gmap Z Tenant) (jobs : list Job)
    (events : list Event) (tenantId : Z) (t : Tenant) :
  tenant_of (mkWorld (<[tenantId := t]> ts) jobs events) tenantId = t.
Proof. unfold tenant_of. cbn [tenants]. by rewrite lookup_insert_eq. Qed.

Lemma tenant_of_insert_other (ts : gmap Z Tenant) (jobs : list Job)
    (events : list Event) (tenantId other : Z) (t : Tenant) :
  other <> tenantId ->
  tenant_of (mkWorld (<[tenantId := t]> ts) jobs events) other
  = default empty_tenant (ts !! other).
Proof.
  intros Hne. unfold tenant_of. cbn [tenants]. by rewrite lookup_insert_ne.
Qed.

(** [deleteInventoryTransactions], step by step. *)
Lemma deleteInventoryTransactions_run
    (tenantId : Z) (transactionId transactionType : JsVal) (w : World) :
  exists w' : World,
    deleteInventoryTransactions tenantId transactionId transactionType w
      = (Normal (List.filter (same_document transactionId transactionType)
                   (InventoryTransaction_rows (tenant_of w tenantId))), w') /\
    InventoryTransaction_rows (tenant_of w' tenantId)
      = List.filter
          (fun row => negb (same_document transactionId transactionType row))
          (InventoryTransaction_rows (tenant_of w tenantId)) /\
    settings_meta (tenant_of w' tenantId)
      = settings_meta (tenant_of w tenantId) /\
    dispatched w'
      = (dispatched w
         ++ [onInventoryTransactionsDeleted tenantId
               (List.filter (same_document transactionId transactionType)
                  (InventoryTransaction_rows (tenant_of w tenantId)))
               transactionId transactionType])%list.
Proof.
  cbv [deleteInventoryTransactions bind inventoryTransactionRepository_find
         inventoryTransactionRepository_deleteBy eventDispatcher_dispatch ret].
  eexists. split; [reflexivity|].
  unfold set_tenant. cbn [tenants agenda_jobs dispatched].
  rewrite !tenant_of_insert. cbn. done.
Qed.

(** X1.  [deleteInventoryTransactions] returns exactly the stored rows of
    the document, leaves exactly the rows of the other documents, loses
    no row in between, and dispatches one transactions-deleted event
    that carries the returned rows. *)
Theorem deleteInventoryTransactions_splits_table
    (tenantId : Z) (transactionId transactionType : JsVal) (w : World) :
  let '(r, w') :=
    deleteInventoryTransactions tenantId transactionId transactionType w in
  exists old : list JsObject,
    r = Normal old /\
    (forall row, In row old <->
       In row (InventoryTransaction_rows (tenant_of w tenantId)) /\
       of_document transactionId transactionType row) /\
    (forall row, In row (InventoryTransaction_rows (tenant_of w' tenantId)) <->
       In row (InventoryTransaction_rows (tenant_of w tenantId)) /\
       ~ of_document transactionId transactionType row) /\
    (List.length old
     + List.length (InventoryTransaction_rows (tenant_of w' tenantId)))%nat
      = List.length (InventoryTransaction_rows (tenant_of w tenantId)) /\
    dispatched w'
      = (dispatched w
         ++ [onInventoryTransactionsDeleted tenantId old transactionId
               transactionType])%list.
Proof.
  destruct (deleteInventoryTransactions_run tenantId transactionId
              transactionType w) as (w' & Hrun & Hrows & _ & Hev).
  rewrite Hrun. eexists. split; [reflexivity|].
  rewrite Hrows. split; [|split; [|split; [apply filter_length_split|exact Hev]]].
  - intros row. rewrite List.filter_In, same_document_spec. reflexivity.
  - intros row. rewrite List.filter_In, negb_true_iff.
    rewrite <- same_document_spec.
    destruct (same_document transactionId transactionType row);
      intuition congruence.
Qed.

(** X2.  Deleting the transactions of a document that has none returns
    the empty list and leaves the table as it is, and still dispatches a
    transactions-deleted event, with an empty list. *)
Theorem deleteInventoryTransactions_nothing_stored
    (tenantId : Z) (transactionId transactionType : JsVal) (w : World) :
  Forall (fun row => ~ of_document transactionId transactionType row)
    (InventoryTransaction_rows (tenant_of w tenantId)) ->
  let '(r, w') :=
    deleteInventoryTransactions tenantId transactionId transactionType w in
  r = Normal [] /\
  InventoryTransaction_rows (tenant_of w' tenantId)
    = InventoryTransaction_rows (tenant_of w tenantId) /\
  dispatched w'
    = (dispatched w
       ++ [onInventoryTransactionsDeleted tenantId [] transactionId
             transactionType])%list.
Proof.
  intros Hnone.
  assert (forall row,
            In row (InventoryTransaction_rows (tenant_of w tenantId)) ->
            same_document transactionId transactionType row = false) as Hall.
  { intros row Hin. rewrite List.Forall_forall in Hnone.
    destruct (same_document transactionId transactionType row) eqn:Hs;
      [|reflexivity].
    exfalso. by apply (Hnone row Hin), same_document_spec. }
  destruct (deleteInventoryTransactions_run tenantId transactionId
              transactionType w) as (w' & Hrun & Hrows & _ & Hev).
  rewrite (filter_none _ _ Hall) in Hrun, Hev.
  rewrite Hrun. split; [reflexivity|]. split; [|exact Hev].
  rewrite Hrows. apply filter_all. intros row Hin.
  by rewrite (Hall row Hin).
Qed.

(** X3.  Deleting the transactions of a document twice: the second call
    finds nothing and leaves the table as the first call left it. *)
Theorem deleteInventoryTransactions_twice
    (tenantId : Z) (transactionId transactionType : JsVal) (w : World) :
  let '(_, w1) :=
    deleteInventoryTransactions tenantId transactionId transactionType w in
  let '(r2, w2) :=
    deleteInventoryTransactions tenantId transactionId transactionType w1 in
  r2 = Normal [] /\
  InventoryTransaction_rows (tenant_of w2 tenantId)
    = InventoryTransaction_rows (tenant_of w1 tenantId).
Proof.
  destruct (deleteInventoryTransactions_run tenantId transactionId
              transactionType w) as (w1 & Hrun1 & Hrows1 & _ & _).
  rewrite Hrun1.
  destruct (deleteInventoryTransactions_run tenantId transactionId
              transactionType w1) as (w2 & Hrun2 & Hrows2 & _ & _).
  assert (forall row,
            In row (InventoryTransaction_rows (tenant_of w1 tenantId)) ->
            same_document transactionId transactionType row = false) as Hall.
  { intros row Hin. rewrite Hrows1 in Hin.
    apply List.filter_In in Hin as [_ Hneg]. by apply negb_true_iff. }
  rewrite Hrun2, (filter_none _ _ Hall). split; [reflexivity|].
  rewrite Hrows2. apply filter_all. intros row Hin.
  by rewrite (Hall row Hin).
Qed.

(** [recordInventoryTransaction] with [deleteOld], step by step. *)
Lemma recordInventoryTransaction_override_run
    (tenantId : Z) (entry : JsObject) (w : World) :
  exists w' : World,
    recordInventoryTransaction tenantId entry true w
      = (Normal (<["lotNumber" := prop entry "lotNumber"]> entry), w') /\
    InventoryTransaction_rows (tenant_of w' tenantId)
      = (List.filter
           (fun row =>
              negb (same_document (prop entry "transactionId")
                      (prop entry "transactionType") row))
           (InventoryTransaction_rows (tenant_of w tenantId))
         ++ [<["lotNumber" := prop entry "lotNumber"]> entry])%list.
Proof.
  cbv [recordInventoryTransaction deleteInventoryTransactions bind
         inventoryTransactionRepository_find
         inventoryTransactionRepository_deleteBy eventDispatcher_dispatch
         InventoryTransaction_insert ret].
  eexists. split; [reflexivity|].
  unfold set_tenant. cbn [tenants agenda_jobs dispatched].
  rewrite !tenant_of_insert. reflexivity.
Qed.

(** X4.  [recordInventoryTransaction] with [deleteOld] replaces the
    document: afterwards the stored rows of the transaction's document
    are the one new row, which reads like the transaction on every
    property, and the rows of the other documents are as before. *)
Theorem recordInventoryTransaction_override_replaces
    (tenantId : Z) (entry : JsObject) (w : World) :
  let '(r, w') := recordInventoryTransaction tenantId entry true w in
  exists row : JsObject,
    r = Normal row /\
    (forall k, prop row k = prop entry k) /\
    List.filter
      (same_document (prop entry "transactionId")
         (prop entry "transactionType"))
      (InventoryTransaction_rows (tenant_of w' tenantId)) = [row] /\
    List.filter
      (fun row => negb (same_document (prop entry "transactionId")
                          (prop entry "transactionType") row))
      (InventoryTransaction_rows (tenant_of w' tenantId))
    = List.filter
        (fun row => negb (same_document (prop entry "transactionId")
                            (prop entry "transactionType") row))
        (InventoryTransaction_rows (tenant_of w tenantId)).
Proof.
  destruct (recordInventoryTransaction_override_run tenantId entry w)
    as (w' & Hrun & Hrows).
  rewrite Hrun. eexists. split; [reflexivity|].
  split; [apply inserted_row_reads_alike|].
  assert (same_document (prop entry "transactionId")
            (prop entry "transactionType")
            (<["lotNumber" := prop entry "lotNumber"]> entry) = true) as Hnew.
  { apply same_document_spec. split; apply inserted_row_reads_alike. }
  rewrite Hrows, !List.filter_app. cbn [List.filter]. rewrite Hnew.
  cbn [negb]. rewrite app_nil_r. split.
  - rewrite filter_none; [reflexivity|].
    intros row Hin. apply List.filter_In in Hin as [_ Hneg].
    by apply negb_true_iff.
  - apply filter_all. intros row Hin.
    by apply List.filter_In in Hin as [_ Hneg].
Qed.




End TransactionRecorder_facts.

(* ===================================================================== *)
(** ** Further properties of the LotSequencer and of recording *)
(* ===================================================================== *)

Section LotSequencer_more_facts.

Context `{C : Collaborators}.

(** [incrementNextLotNumber] writes the counter and nothing else. *)
Lemma incrementNextLotNumber_frame (tenantId : Z) (w : World) :
  exists (n : JsNumber) (w' : World),
    incrementNextLotNumber tenantId w = (Normal n, w') /\
    stored_lot_number w' tenantId = Some (VNumber n) /\
    (forall query, query <> LOT_NUMBER_KEY ->
       settings_meta (tenant_of w' tenantId) !! query
       = settings_meta (tenant_of w tenantId) !! query) /\
    Item_rows (tenant_of w' tenantId) = Item_rows (tenant_of w tenantId) /\
    InventoryTransaction_rows (tenant_of w' tenantId)
      = InventoryTransaction_rows (tenant_of w tenantId) /\
    InventoryCostLotTracker_rows (tenant_of w' tenantId)
      = InventoryCostLotTracker_rows (tenant_of w tenantId) /\
    dispatched w' = dispatched w /\
    agenda_jobs w' = agenda_jobs w.
Proof.
  cbv [incrementNextLotNumber bind settings_find settings_set settings_save
         ret stored_lot_number].
  do 2 eexists. split; [reflexivity|].
  unfold set_tenant. rewrite !tenant_of_insert. cbn.
  split; [by rewrite lookup_insert_eq|].
  split; [intros query Hne; by rewrite lookup_insert_ne|]. done.
Qed.

(** X7.  When the entries collaborator fails,
    [recordInventoryTransactionsFromItemsEntries] fails with the same
    exception and leaves the world as it was: nothing is inserted, the
    lot counter is not advanced, no event is dispatched. *)
Theorem recordInventoryTransactionsFromItemsEntries_entries_fail
    (tenantId transactionId : Z) (transactionType : string)
    (transactionDate : JsVal)
    (transactionDirection : TInventoryTransactionDirection)
    (override : bool) (w : World) (e : JsException) :
  getInventoryEntries tenantId transactionType transactionId w = Throw e ->
  recordInventoryTransactionsFromItemsEntries tenantId transactionId
    transactionType transactionDate transactionDirection override w
  = (Throw e, w).
Proof.
  intros Hfail.
  cbv [recordInventoryTransactionsFromItemsEntries bind getNextLotNumber
         settings_find ret].
  by rewrite Hfail.
Qed.






End LotSequencer_more_facts.

Section Recording_facts.

Context `{C : Collaborators}.



End Recording_facts.

(* ===================================================================== *)
(** ** What the tenant-scoped methods leave alone *)
(* ===================================================================== *)

Section Confinement_facts.

Context `{C : Collaborators}.

Lemma confined_refl (tenantId : Z) (w : World) : confined_to tenantId w w.
Proof.
  split; [done|]. split; [done|]. exists []. by rewrite app_nil_r.
Qed.

Lemma confined_trans (tenantId : Z) (w1 w2 w3 : World) :
  confined_to tenantId w1 w2 -> confined_to tenantId w2 w3 ->
  confined_to tenantId w1 w3.
Proof.
  intros (Ht1 & Ha1 & ev1 & He1) (Ht2 & Ha2 & ev2 & He2).
  split; [|split].
  - intros other Hne. by rewrite Ht2, Ht1.
  - by rewrite Ha2.
  - exists (ev1 ++ ev2)%list. by rewrite He2, He1, app_assoc.
Qed.

Lemma confined_set_tenant (tenantId : Z) (t : Tenant) (w : World) :
  confined_to tenantId w (set_tenant tenantId t w).
Proof.
  split; [|split].
  - intros other Hne. unfold set_tenant. cbn [tenants].
    by rewrite lookup_insert_ne.
  - reflexivity.
  - exists []. unfold set_tenant. cbn [dispatched]. by rewrite app_nil_r.
Qed.

Lemma confined_bind {A B : Type} (tenantId : Z) (m : M A) (k : A -> M B) :
  (forall w, confined_to tenantId w (snd (m w))) ->
  (forall a w, confined_to tenantId w (snd (k a w))) ->
  forall w, confined_to tenantId w (snd (bind m k w)).
Proof.
  intros Hm Hk w. unfold bind. specialize (Hm w).
  destruct (m w) as [[a|e] w1]; simpl in *.
  - eapply confined_trans; [exact Hm | apply Hk].
  - exact Hm.
Qed.

Lemma confined_dispatch (tenantId : Z) (e : Event) (w : World) :
  confined_to tenantId w (snd (eventDispatcher_dispatch e w)).
Proof.
  split; [done|]. split; [done|]. by exists [e].
Qed.

Lemma confined_deleteInventoryTransactions
    (tenantId : Z) (transactionId transactionType : JsVal) (w : World) :
  confined_to tenantId w
    (snd (deleteInventoryTransactions tenantId transactionId transactionType
            w)).
Proof.
  unfold deleteInventoryTransactions.
  apply confined_bind; [intros; apply confined_refl|]. intros old.
  apply confined_bind; [intros; apply confined_set_tenant|]. intros _.
  apply confined_bind; [intros; apply confined_dispatch|]. intros _ w0.
  apply confined_refl.
Qed.

Lemma confined_recordInventoryTransaction
    (tenantId : Z) (entry : JsObject) (deleteOld : bool) (w : World) :
  confined_to tenantId w
    (snd (recordInventoryTransaction tenantId entry deleteOld w)).
Proof.
  unfold recordInventoryTransaction.
  apply confined_bind; [|intros _ w0; apply confined_set_tenant].
  destruct deleteOld; [|intros; apply confined_refl].
  apply confined_bind;
    [intros; apply confined_deleteInventoryTransactions
    |intros; apply confined_refl].
Qed.

Lemma confined_record_all
    (tenantId : Z) (txs : list JsObject) (override : bool) (w : World) :
  confined_to tenantId w (snd (record_all tenantId txs override w)).
Proof.
  revert w. induction txs as [|tx txs IH]; intros w; [apply confined_refl|].
  cbn [record_all].
  apply confined_bind; [intros; apply confined_recordInventoryTransaction|].
  intros stored.
  apply confined_bind; [exact IH | intros; apply confined_refl].
Qed.

Lemma confined_incrementNextLotNumber (tenantId : Z) (w : World) :
  confined_to tenantId w (snd (incrementNextLotNumber tenantId w)).
Proof.
  unfold incrementNextLotNumber.
  apply confined_bind; [intros; apply confined_refl|]. intros stored.
  apply confined_bind; [intros; apply confined_set_tenant|]. intros _.
  apply confined_bind; intros; apply confined_refl.
Qed.

(** X12.  The recording methods stay inside their tenant: whatever the
    entries collaborator answers and with or without override,
    [recordInventoryTransactionsFromItemsEntries],
    [deleteInventoryTransactions], [incrementNextLotNumber],
    [markItemsCostComputeRunning] and [recordInventoryCostLotTransaction]
    leave the storage of every other tenant and the job queue as they
    were, and only add events after those already dispatched. *)
Theorem recording_confined_to_tenant
    (tenantId transactionId : Z) (transactionType : string)
    (transactionDate : JsVal)
    (transactionDirection : TInventoryTransactionDirection)
    (override isRunning : bool) (document_id document_type : JsVal)
    (inventoryLotEntry : JsObject) (w : World) :
  confined_to tenantId w
    (snd (recordInventoryTransactionsFromItemsEntries tenantId transactionId
            transactionType transactionDate transactionDirection override w))
  /\
  confined_to tenantId w
    (snd (deleteInventoryTransactions tenantId document_id document_type w))
  /\
  confined_to tenantId w (snd (incrementNextLotNumber tenantId w)) /\
  confined_to tenantId w
    (snd (markItemsCostComputeRunning tenantId isRunning w)) /\
  confined_to tenantId w
    (snd (recordInventoryCostLotTransaction tenantId inventoryLotEntry w)).
Proof.
  split; [|split; [apply confined_deleteInventoryTransactions|
           split; [apply confined_incrementNextLotNumber|split]]].
  - revert w. unfold recordInventoryTransactionsFromItemsEntries.
    apply confined_bind.
    { intros w. unfold getNextLotNumber.
      revert w. apply confined_bind; intros; apply confined_refl. }
    intros lotNumber.
    apply confined_bind; [intros; apply confined_refl|].
    intros inventoryEntries.
    destruct (Datatypes.length inventoryEntries <=? 0)%nat;
      [intros; apply confined_refl|].
    apply confined_bind; [intros; apply confined_refl|]. intros txs.
    apply confined_bind.
    { unfold recordInventoryTransactions.
      apply confined_bind;
        [intros; apply confined_record_all|intros; apply confined_dispatch]. }
    intros _.
    apply confined_bind;
      [intros; apply confined_incrementNextLotNumber
      |intros; apply confined_refl].
  - revert w. unfold markItemsCostComputeRunning.
    apply confined_bind;
      [intros; apply confined_set_tenant|intros; apply confined_refl].
  - apply confined_set_tenant.
Qed.

(** X13.  The running flag reads back the last value marked for the
    tenant, and marking it for one tenant does not change what another
    tenant reads. *)
Theorem running_flag_last_write_wins
    (tenantId other : Z) (first last : bool) (w : World) :
  fst ((markItemsCostComputeRunning tenantId first ;;;
        markItemsCostComputeRunning tenantId last ;;;
        isItemsCostComputeRunning tenantId) w) = Normal (VBool last) /\
  (other <> tenantId ->
   fst ((markItemsCostComputeRunning tenantId last ;;;
         isItemsCostComputeRunning other) w)
   = fst (isItemsCostComputeRunning other w)).
Proof.
  cbv [markItemsCostComputeRunning isItemsCostComputeRunning bind
         settings_set settings_save settings_get ret fst].
  unfold set_tenant. cbn [tenants agenda_jobs dispatched]. split.
  - rewrite !tenant_of_insert. cbn [settings_meta].
    by rewrite lookup_insert_eq.
  - intros Hne. by rewrite tenant_of_insert_other.
Qed.

(** X14.  The running flag and the lot counter do not interfere: marking
    the flag leaves the number [getNextLotNumber] returns unchanged, and
    [incrementNextLotNumber] leaves the flag as it reads. *)
Theorem running_flag_and_lot_counter_independent
    (tenantId : Z) (isRunning : bool) (w : World) :
  fst (getNextLotNumber tenantId
         (snd (markItemsCostComputeRunning tenantId isRunning w)))
  = fst (getNextLotNumber tenantId w) /\
  fst (isItemsCostComputeRunning tenantId
         (snd (incrementNextLotNumber tenantId w)))
  = fst (isItemsCostComputeRunning tenantId w).
Proof.
  split.
  - cbv [markItemsCostComputeRunning getNextLotNumber bind settings_set
           settings_save settings_find ret fst snd].
    unfold set_tenant. rewrite !tenant_of_insert. cbn [settings_meta].
    by rewrite lookup_insert_ne.
  - destruct (incrementNextLotNumber_frame tenantId w)
      as (n & w' & Hrun & _ & Hother & _).
    rewrite Hrun. cbv [isItemsCostComputeRunning settings_get fst snd].
    by rewrite Hother.
Qed.

End Confinement_facts.

(* ===================================================================== *)
(** ** Further properties of the ComputeScheduler *)
(* ===================================================================== *)

Section ComputeScheduler_more_facts.

Context `{C : Collaborators}.

Lemma filter_twice {A : Type} (p : A -> bool) (l : list A) :
  List.filter p (List.filter p l) = List.filter p l.
Proof.
  apply filter_all. intros x Hin. by apply List.filter_In in Hin as [_ ?].
Qed.

Lemma world_eta (w : World) :
  mkWorld (tenants w) (agenda_jobs w) (dispatched w) = w.
Proof. by destruct w. Qed.

(** X15.  After [scheduleComputeItemCost t i D], (t, i) has at least one
    pending job and every pending job of (t, i) starts at or before D;
    the pending jobs of (t, i) that started at or before D are all still
    pending; and a job-scheduled event is dispatched exactly when there
    was none of them, in which case the queued job starts at D. *)
Theorem scheduleComputeItemCost_covers_request
    (tenantId itemId startingDate : Z) (w : World) :
  let '(r, w') := scheduleComputeItemCost tenantId itemId startingDate w in
  r = Normal tt /\
  pending_jobs tenantId itemId w' <> [] /\
  (forall j, In j (pending_jobs tenantId itemId w') ->
     data_startingDate (job_data j) <= startingDate) /\
  (forall j, In j (pending_jobs tenantId itemId w) ->
     data_startingDate (job_data j) <= startingDate ->
     In j (pending_jobs tenantId itemId w')) /\
  ((forall j, In j (pending_jobs tenantId itemId w) ->
      startingDate < data_startingDate (job_data j)) ->
   pending_jobs tenantId itemId w'
     = [compute_item_cost_job tenantId itemId startingDate] /\
   dispatched w'
     = (dispatched w
        ++ [onComputeItemCostJobScheduled startingDate itemId tenantId])%list)
  /\
  ((exists j, In j (pending_jobs tenantId itemId w) /\
              data_startingDate (job_data j) <= startingDate) ->
   dispatched w' = dispatched w).
Proof.
  destruct (scheduleComputeItemCost_effect tenantId itemId startingDate w)
    as (w' & Hrun & _ & Hcase).
  rewrite Hrun. cbv zeta in Hcase. split; [reflexivity|].
  destruct (List.filter
              (fun j => data_startingDate (job_data j) <=? startingDate)
              (pending_jobs tenantId itemId w)) as [|j0 kept] eqn:Hkept.
  - destruct Hcase as (_ & Hev & Hpend). rewrite Hpend.
    split; [discriminate|]. split; [|split; [|split]].
    + intros j [<-|[]]. simpl. lia.
    + intros j Hin Hle. exfalso.
      assert (In j []) as []. rewrite <- Hkept.
      apply List.filter_In. split; [exact Hin | lia].
    + intros _. by split.
    + intros (j & Hin & Hle). exfalso.
      assert (In j []) as []. rewrite <- Hkept.
      apply List.filter_In. split; [exact Hin | lia].
  - destruct Hcase as (_ & Hev & Hpend). rewrite Hpend.
    split; [discriminate|]. split; [|split; [|split]].
    + intros j Hin. rewrite <- Hkept in Hin.
      apply List.filter_In in Hin as [_ Hle]. lia.
    + intros j Hin Hle. rewrite <- Hkept.
      apply List.filter_In. split; [exact Hin | lia].
    + intros Hall. exfalso.
      assert (In j0 (j0 :: kept)) as Hin by (by left).
      rewrite <- Hkept in Hin. apply List.filter_In in Hin as [Hin Hle].
      specialize (Hall j0 Hin). lia.
    + intros _. exact Hev.
Qed.

(** X16.  [scheduleComputeItemCost] is idempotent: a second call with the
    same arguments, right after the first, changes nothing; it queues no
    job and dispatches no event. *)
Theorem scheduleComputeItemCost_twice
    (tenantId itemId startingDate : Z) (w : World) :
  let '(_, w1) := scheduleComputeItemCost tenantId itemId startingDate w in
  scheduleComputeItemCost tenantId itemId startingDate w1 = (Normal tt, w1).
Proof.
  destruct (scheduleComputeItemCost_effect tenantId itemId startingDate w)
    as (w1 & Hrun1 & _ & Hcase1).
  rewrite Hrun1. cbv zeta in Hcase1.
  destruct (scheduleComputeItemCost_effect tenantId itemId startingDate w1)
    as (w2 & Hrun2 & Hten2 & Hcase2).
  rewrite Hrun2. f_equal. cbv zeta in Hcase2.
  assert (exists j kept,
            List.filter
              (fun j => data_startingDate (job_data j) <=? startingDate)
              (pending_jobs tenantId itemId w1) = j :: kept /\
            List.filter
              (fun j => negb (upper_starting_date tenantId itemId
                                startingDate j))
              (agenda_jobs w1) = agenda_jobs w1) as (j & kept & Hkept & Hsame).
  { destruct (List.filter
                (fun j => data_startingDate (job_data j) <=? startingDate)
                (pending_jobs tenantId itemId w)) as [|j0 kept0] eqn:Hk.
    - destruct Hcase1 as (Hagenda & _ & Hpend).
      exists (compute_item_cost_job tenantId itemId startingDate), [].
      split.
      + rewrite Hpend. cbn [List.filter compute_item_cost_job job_data
                              data_startingDate].
        by rewrite Z.leb_refl.
      + assert (upper_starting_date tenantId itemId startingDate
                  (compute_item_cost_job tenantId itemId startingDate)
                = false) as Hnew.
        { unfold upper_starting_date.
          cbn [compute_item_cost_job job_data data_startingDate].
          by rewrite Z.ltb_irrefl, andb_false_r. }
        rewrite Hagenda, List.filter_app, filter_twice.
        cbn [List.filter]. by rewrite Hnew.
    - destruct Hcase1 as (Hagenda & _ & Hpend).
      exists j0, kept0. split.
      + rewrite Hpend, <- Hk. apply filter_twice.
      + rewrite Hagenda. apply filter_twice. }
  rewrite Hkept in Hcase2. destruct Hcase2 as (Hagenda2 & Hev2 & _).
  rewrite <- (world_eta w2), <- (world_eta w1).
  by rewrite Hten2, Hagenda2, Hev2, Hsame.
Qed.

(** X17.  [scheduleComputeItemCost t i D] only removes pending compute
    jobs of (t, i): every other job of the queue (another tenant, another
    item, another job name, or not pending) stays in the queue, the
    pending jobs of every other (tenant, item) are the same, in the same
    order, and no tenant's storage is touched. *)
Theorem scheduleComputeItemCost_leaves_others
    (tenantId itemId startingDate : Z) (w : World) :
  let '(_, w') := scheduleComputeItemCost tenantId itemId startingDate w in
  (forall j, In j (agenda_jobs w) ->
     pending_compute_job tenantId itemId j = false ->
     In j (agenda_jobs w')) /\
  (forall otherTenant otherItem,
     (otherTenant, otherItem) <> (tenantId, itemId) ->
     pending_jobs otherTenant otherItem w'
     = pending_jobs otherTenant otherItem w) /\
  tenants w' = tenants w.
Proof.
  destruct (scheduleComputeItemCost_effect tenantId itemId startingDate w)
    as (w' & Hrun & Hten & Hcase).
  rewrite Hrun. cbv zeta in Hcase.
  assert (forall j, In j (agenda_jobs w) ->
            pending_compute_job tenantId itemId j = false ->
            In j (List.filter
                    (fun j => negb (upper_starting_date tenantId itemId
                                      startingDate j))
                    (agenda_jobs w))) as Hkeep.
  { intros j Hin Hnot. apply List.filter_In. split; [exact Hin|].
    unfold upper_starting_date. by rewrite Hnot. }
  assert (forall otherTenant otherItem,
            (otherTenant, otherItem) <> (tenantId, itemId) ->
            forall j, pending_compute_job otherTenant otherItem j = true ->
                      pending_compute_job tenantId itemId j = false)
    as Hdisjoint.
  { intros otherTenant otherItem Hne j Hj.
    unfold pending_compute_job in *.
    rewrite !andb_true_iff, !bool_decide_eq_true in Hj.
    destruct Hj as [[[_ _] Ht] Hi].
    destruct (bool_decide (data_tenantId (job_data j) = tenantId)) eqn:Ht';
      [|by rewrite andb_false_r].
    destruct (bool_decide (data_itemId (job_data j) = itemId)) eqn:Hi';
      [|by rewrite andb_false_r].
    apply bool_decide_eq_true in Ht', Hi'. exfalso. apply Hne. congruence. }
  assert (forall otherTenant otherItem,
            (otherTenant, otherItem) <> (tenantId, itemId) ->
            List.filter (pending_compute_job otherTenant otherItem)
              (List.filter
                 (fun j => negb (upper_starting_date tenantId itemId
                                   startingDate j))
                 (agenda_jobs w))
            = pending_jobs otherTenant otherItem w) as Hothers.
  { intros otherTenant otherItem Hne. rewrite filter_filter_andb.
    apply List.filter_ext. intros j.
    destruct (pending_compute_job otherTenant otherItem j) eqn:Hj;
      [|by rewrite andb_false_r].
    unfold upper_starting_date.
    by rewrite (Hdisjoint otherTenant otherItem Hne j Hj). }
  destruct (List.filter
              (fun j => data_startingDate (job_data j) <=? startingDate)
              (pending_jobs tenantId itemId w)) as [|j0 kept];
    destruct Hcase as (Hagenda & _ & _).
  - split; [|split; [|exact Hten]].
    + intros j Hin Hnot. rewrite Hagenda. apply in_or_app. left.
      by apply Hkeep.
    + intros otherTenant otherItem Hne. unfold pending_jobs at 1.
      rewrite Hagenda, List.filter_app, (Hothers _ _ Hne).
      cbn [List.filter].
      destruct (pending_compute_job otherTenant otherItem
                  (compute_item_cost_job tenantId itemId startingDate))
        eqn:Hnew; [|by rewrite app_nil_r].
      apply (Hdisjoint _ _ Hne) in Hnew.
      by rewrite compute_item_cost_job_pending in Hnew.
  - split; [|split; [|exact Hten]].
    + intros j Hin Hnot. rewrite Hagenda. by apply Hkeep.
    + intros otherTenant otherItem Hne. unfold pending_jobs at 1.
      rewrite Hagenda. by apply Hothers.
Qed.

End ComputeScheduler_more_facts.

Section Scheduling_runs.

Context `{C : Collaborators}.

Lemma scheduleComputeItemCost_each_from
    (tenantId itemId earliest : Z) (startingDates : list Z) (w : World) :
  pending_jobs tenantId itemId w
    = [compute_item_cost_job tenantId itemId earliest] ->
  exists w' : World,
    scheduleComputeItemCost_each tenantId itemId startingDates w
      = (Normal tt, w') /\
    pending_jobs tenantId itemId w'
      = [compute_item_cost_job tenantId itemId
           (fold_left Z.min startingDates earliest)].
Proof.
  revert earliest w.
  induction startingDates as [|d startingDates IH]; intros earliest w Hpend.
  - exists w. by split.
  - cbn [scheduleComputeItemCost_each fold_left]. unfold bind.
    destruct (scheduleComputeItemCost_effect tenantId itemId d w)
      as (w1 & Hrun & _ & Hcase).
    rewrite Hrun. cbv zeta in Hcase. rewrite Hpend in Hcase.
    cbn [List.filter compute_item_cost_job job_data data_startingDate]
      in Hcase.
    apply IH.
    destruct (Z.leb_spec earliest d) as [Hle|Hlt].
    + destruct Hcase as (_ & _ & ->). by rewrite Z.min_l.
    + destruct Hcase as (_ & _ & ->). by rewrite Z.min_r by lia.
Qed.

(** X18.  Starting with no pending job for (t, i), any number of
    sequential [scheduleComputeItemCost] calls for (t, i), in any order
    of starting dates, leaves exactly one pending job for (t, i), and it
    starts at the earliest of the requested dates. *)
Theorem scheduleComputeItemCost_each_keeps_earliest
    (tenantId itemId startingDate : Z) (startingDates : list Z) (w : World) :
  pending_jobs tenantId itemId w = [] ->
  let '(r, w') :=
    scheduleComputeItemCost_each tenantId itemId
      (startingDate :: startingDates) w in
  r = Normal tt /\
  pending_jobs tenantId itemId w'
    = [compute_item_cost_job tenantId itemId
         (fold_left Z.min startingDates startingDate)].
Proof.
  intros Hnone.
  cbn [scheduleComputeItemCost_each]. unfold bind.
  destruct (scheduleComputeItemCost_effect tenantId itemId startingDate w)
    as (w1 & Hrun & _ & Hcase).
  rewrite Hrun. cbv zeta in Hcase. rewrite Hnone in Hcase.
  destruct Hcase as (_ & _ & Hpend).
  destruct (scheduleComputeItemCost_each_from tenantId itemId startingDate
              startingDates w1 Hpend) as (w' & Hrest & Hfinal).
  rewrite Hrest. by split.
Qed.

End Scheduling_runs.

(* ===================================================================== *)
(** ** A further property of the EntryTransformer *)
(* ===================================================================== *)

(** X19.  An inventory transaction built by
    [transformItemEntriesToInventory] has no property beyond [itemId],
    [quantity], [rate], [lotNumber], [transactionType], [transactionId],
    [direction], [date] and [entryId]: whatever else the entry holds
    (description, discount, ...) is not carried over. *)
Theorem transformItemEntriesToInventory_carries_nothing_else
    (itemEntries : list JsObject) direction date lotNumber :
  exists txs : list JsObject,
    transformItemEntriesToInventory itemEntries direction date lotNumber
      = Normal txs /\
    Forall (fun tx : JsObject =>
              forall (k : string) (v : JsVal),
                tx !! k = Some v ->
                In k ["itemId"; "quantity"; "rate"; "lotNumber";
                      "transactionType"; "transactionId"; "direction";
                      "date"; "entryId"])
      txs.
Proof.
  unfold transformItemEntriesToInventory.
  destruct (array_map_normal (transform_entry direction date lotNumber)
              (fun (_ tx : JsObject) =>
                 forall (k : string) (v : JsVal),
                   tx !! k = Some v ->
                   In k ["itemId"; "quantity"; "rate"; "lotNumber";
                         "transactionType"; "transactionId"; "direction";
                         "date"; "entryId"])
              itemEntries) as (txs & Hrun & Hall).
  { intros entry. eexists. split; [reflexivity|]. intros k v Hk.
    repeat match type of Hk with
           | <[?key := _]> _ !! k = Some _ =>
               destruct (decide (k = key)) as [->|?];
               [simpl; tauto | rewrite lookup_insert_ne in Hk by done]
           end.
    rewrite lookup_pick in Hk.
    destruct (decide (k ∈ ["itemId"; "quantity"; "rate"])) as [Hin|_];
      [|discriminate].
    apply list_elem_of_In in Hin. simpl in *. tauto. }
  exists txs. split; [exact Hrun|].
  clear -Hall. induction Hall; constructor; assumption.
Qed.

(* ===================================================================== *)
(** ** Re-recording a document *)
(* ===================================================================== *)

Section Override_facts.

Context `{C : Collaborators}.

(** X20.  Recording a document that has one inventory entry, with
    override: the rows stored before for the entry's document
    (referenceId, referenceType) are deleted and announced by a
    transactions-deleted event, the one new row is stored with the number
    [getNextLotNumber] returned and announced by a transactions-created
    event, and the rows of the other documents are as before. *)
Theorem recordInventoryTransactionsFromItemsEntries_override_one_entry
    (tenantId transactionId : Z) (transactionType : string)
    (transactionDate : JsVal)
    (transactionDirection : TInventoryTransactionDirection)
    (w : World) (entry : JsObject) :
  getInventoryEntries tenantId transactionType transactionId w
    = Normal [entry] ->
  exists lotNumber : JsNumber,
    getNextLotNumber tenantId w = (Normal lotNumber, w) /\
    let '(r, w') :=
      recordInventoryTransactionsFromItemsEntries tenantId transactionId
        transactionType transactionDate transactionDirection true w in
    r = Normal tt /\
    exists row : JsObject,
      prop row "lotNumber" = VNumber lotNumber /\
      prop row "itemId" = prop entry "itemId" /\
      List.filter
        (same_document (prop entry "referenceId") (prop entry "referenceType"))
        (InventoryTransaction_rows (tenant_of w' tenantId)) = [row] /\
      List.filter
        (fun row => negb (same_document (prop entry "referenceId")
                            (prop entry "referenceType") row))
        (InventoryTransaction_rows (tenant_of w' tenantId))
      = List.filter
          (fun row => negb (same_document (prop entry "referenceId")
                              (prop entry "referenceType") row))
          (InventoryTransaction_rows (tenant_of w tenantId)) /\
      dispatched w'
        = (dispatched w
           ++ [onInventoryTransactionsDeleted tenantId
                 (List.filter
                    (same_document (prop entry "referenceId")
                       (prop entry "referenceType"))
                    (InventoryTransaction_rows (tenant_of w tenantId)))
                 (prop entry "referenceId") (prop entry "referenceType");
               onInventoryTransactionsCreated tenantId [row]])%list.
Proof.
  intros Hentries.
  eexists. split; [reflexivity|].
  cbv [recordInventoryTransactionsFromItemsEntries bind getNextLotNumber
         settings_find ret lift recordInventoryTransactions
         eventDispatcher_dispatch].
  rewrite Hentries. cbn [List.length Nat.leb].
  set (lot := match settings_meta (tenant_of w tenantId) !! LOT_NUMBER_KEY with
              | Some value => if truthy value then parseInt value else Num 1
              | None => Num 1
              end).
  unfold transformItemEntriesToInventory. cbn [array_map].
  destruct (transform_entry_fields transactionDirection transactionDate lot
              entry)
    as (tx & Htx & _ & _ & Hlot & Hitem & _ & _ & Hty & Hid & _).
  rewrite Htx. cbn [record_all].
  assert (prop tx "transactionId" = prop entry "referenceId") as Hid'
    by (unfold prop at 1; by rewrite Hid).
  assert (prop tx "transactionType" = prop entry "referenceType") as Hty'
    by (unfold prop at 1; by rewrite Hty).
  cbv [bind recordInventoryTransaction deleteInventoryTransactions
         inventoryTransactionRepository_find
         inventoryTransactionRepository_deleteBy eventDispatcher_dispatch
         InventoryTransaction_insert ret].
  rewrite Hid', Hty'.
  unfold set_tenant. cbn [tenants agenda_jobs dispatched].
  rewrite !tenant_of_insert.
  cbn [Item_rows InventoryTransaction_rows InventoryCostLotTracker_rows
         settings_meta].
  match goal with
  | |- context [incrementNextLotNumber tenantId ?w2] =>
      destruct (incrementNextLotNumber_frame tenantId w2)
        as (n & w3 & Hinc & _ & _ & _ & Hrows3 & _ & Hev3 & _)
  end.
  rewrite Hinc. split; [reflexivity|].
  rewrite tenant_of_insert in Hrows3.
  cbn [InventoryTransaction_rows dispatched] in Hrows3, Hev3.
  exists (<["lotNumber" := prop tx "lotNumber"]> tx).
  assert (same_document (prop entry "referenceId") (prop entry "referenceType")
            (<["lotNumber" := prop tx "lotNumber"]> tx) = true) as Hnew.
  { apply same_document_spec.
    split; by rewrite inserted_row_reads_alike. }
  split; [rewrite inserted_row_reads_alike; unfold prop; by rewrite Hlot|].
  split; [rewrite inserted_row_reads_alike; unfold prop; by rewrite Hitem|].
  rewrite Hrows3, Hev3, !List.filter_app. cbn [List.filter].
  rewrite Hnew. cbn [negb]. rewrite app_nil_r.
  split; [|split].
  - rewrite filter_none; [reflexivity|].
    intros row Hin. apply List.filter_In in Hin as [_ Hneg].
    by apply negb_true_iff.
  - apply filter_all. intros row Hin.
    by apply List.filter_In in Hin as [_ Hneg].
  - by rewrite <- app_assoc.
Qed.

End Override_facts.

(* ===================================================================== *)
(** ** The further properties at concrete inputs *)
(* ===================================================================== *)

Lemma ledger_rows :
  InventoryTransaction_rows (tenant_of Scenarios.ledger_world 1)
  = [Scenarios.stored_row 42 1; Scenarios.stored_row 43 2;
     Scenarios.stored_row 42 1].
Proof. vm_compute. reflexivity. Defined.

Lemma deleteInventoryTransactions_nothing_stored_witness :
  Forall (fun row => ~ of_document (VNumber (Num 99)) (VString "Bill") row)
    (InventoryTransaction_rows (tenant_of Scenarios.ledger_world 1)) /\
  let '(r, w') :=
    deleteInventoryTransactions 1 (VNumber (Num 99)) (VString "Bill")
      Scenarios.ledger_world in
  r = Normal [] /\
  InventoryTransaction_rows (tenant_of w' 1)
    = InventoryTransaction_rows (tenant_of Scenarios.ledger_world 1) /\
  dispatched w'
    = (dispatched Scenarios.ledger_world
       ++ [onInventoryTransactionsDeleted 1 [] (VNumber (Num 99))
             (VString "Bill")])%list.
Proof.
  assert (Forall
            (fun row => ~ of_document (VNumber (Num 99)) (VString "Bill") row)
            (InventoryTransaction_rows (tenant_of Scenarios.ledger_world 1)))
    as Hnone.
  { rewrite ledger_rows.
    repeat constructor; intros [Hid _]; vm_compute in Hid; discriminate. }
  split; [exact Hnone|].
  exact (deleteInventoryTransactions_nothing_stored 1 (VNumber (Num 99))
           (VString "Bill") Scenarios.ledger_world Hnone).
Defined.


Lemma recordInventoryTransactionsFromItemsEntries_entries_fail_witness :
  @getInventoryEntries Scenarios.failing_entries 1 "Bill" 42
    Scenarios.ledger_world = Throw (ErrorExn "connection lost") /\
  @recordInventoryTransactionsFromItemsEntries Scenarios.failing_entries
    1 42 "Bill" (VDate 1000) IN true Scenarios.ledger_world
  = (Throw (ErrorExn "connection lost"), Scenarios.ledger_world).
Proof.
  split; [reflexivity|].
  apply (@recordInventoryTransactionsFromItemsEntries_entries_fail
           Scenarios.failing_entries 1 42 "Bill" (VDate 1000) IN true
           Scenarios.ledger_world (ErrorExn "connection lost")).
  reflexivity.
Defined.




Lemma scheduleComputeItemCost_each_keeps_earliest_witness :
  pending_jobs 1 7 Fixtures.fresh_world = [] /\
  let '(r, w') :=
    @scheduleComputeItemCost_each Fixtures.one_line_documents 1 7
      (300 :: [100; 200]) Fixtures.fresh_world in
  r = Normal tt /\
  pending_jobs 1 7 w'
    = [@compute_item_cost_job Fixtures.one_line_documents 1 7
         (fold_left Z.min [100; 200] 300)].
Proof.
  split; [reflexivity|].
  apply (@scheduleComputeItemCost_each_keeps_earliest
           Fixtures.one_line_documents 1 7 300 [100; 200]
           Fixtures.fresh_world).
  reflexivity.
Defined.

Lemma recordInventoryTransactionsFromItemsEntries_override_one_entry_witness :
  @getInventoryEntries Fixtures.one_line_documents 1 "Bill" 42
    Scenarios.ledger_world = Normal [Fixtures.line_entry "Bill" 42] /\
  exists lotNumber : JsNumber,
    getNextLotNumber 1 Scenarios.ledger_world
      = (Normal lotNumber, Scenarios.ledger_world) /\
    let '(r, w') :=
      @recordInventoryTransactionsFromItemsEntries Fixtures.one_line_documents
        1 42 "Bill" (VDate 1000) IN true Scenarios.ledger_world in
    r = Normal tt /\
    exists row : JsObject,
      prop row "lotNumber" = VNumber lotNumber /\
      prop row "itemId" = prop (Fixtures.line_entry "Bill" 42) "itemId" /\
      List.filter
        (same_document (prop (Fixtures.line_entry "Bill" 42) "referenceId")
           (prop (Fixtures.line_entry "Bill" 42) "referenceType"))
        (InventoryTransaction_rows (tenant_of w' 1)) = [row] /\
      List.filter
        (fun row =>
           negb (same_document
                   (prop (Fixtures.line_entry "Bill" 42) "referenceId")
                   (prop (Fixtures.line_entry "Bill" 42) "referenceType") row))
        (InventoryTransaction_rows (tenant_of w' 1))
      = List.filter
          (fun row =>
             negb (same_document
                     (prop (Fixtures.line_entry "Bill" 42) "referenceId")
                     (prop (Fixtures.line_entry "Bill" 42) "referenceType")
                     row))
          (InventoryTransaction_rows (tenant_of Scenarios.ledger_world 1)) /\
      dispatched w'
        = (dispatched Scenarios.ledger_world
           ++ [onInventoryTransactionsDeleted 1
                 (List.filter
                    (same_document
                       (prop (Fixtures.line_entry "Bill" 42) "referenceId")
                       (prop (Fixtures.line_entry "Bill" 42) "referenceType"))
                    (InventoryTransaction_rows
                       (tenant_of Scenarios.ledger_world 1)))
                 (prop (Fixtures.line_entry "Bill" 42) "referenceId")
                 (prop (Fixtures.line_entry "Bill" 42) "referenceType");
               onInventoryTransactionsCreated 1 [row]])%list.
Proof.
  split; [reflexivity|].
  apply (@recordInventoryTransactionsFromItemsEntries_override_one_entry
           Fixtures.one_line_documents 1 42 "Bill" (VDate 1000) IN
           Scenarios.ledger_world (Fixtures.line_entry "Bill" 42)).
  reflexivity.
Defined.
